(** * Email-verification Lambda (src/index.js): a shallow embedding

    The handler is triggered by an SNS event, asks DynamoDB whether a
    verification e-mail was already sent to the address, and otherwise
    creates a token, sends the mail through SES and records the send in
    DynamoDB.

    Conventions of the model.
    - JavaScript values that flow through the handler (the event, the parsed
      SNS message, the fields taken from it) are values of [JSValue].
    - A JavaScript string is a Rocq [string] holding its UTF-8 bytes; a
      surrogate that has no partner is held as the three bytes the same
      scheme gives its code point (ED A0 80 to ED BF BF).
    - A number is the integer it is nearest to; how the runtime prints it is
      a field of [Runtime].
    - [throw] is the [Throw] result; [await] on a rejected promise is the
      same thing, since nothing in the file runs concurrently.
    - The AWS clients, [uuidv4] and the clock are external: they are the
      fields of a [Services] record over an abstract world, and every
      command sent to a client is appended to a chronological list of calls.
    - [console.log] and [console.error] only write diagnostics and are left
      out of the model; the conversion to a string that a template literal
      in their argument performs is kept, since it can throw. *)

From Stdlib Require Import String Ascii List ZArith Bool Lia DecimalString.
Import ListNotations.
Set Warnings "-register-all".
Local Open Scope string_scope.
Local Open Scope Z_scope.

(** ** JavaScript values and completions *)

Inductive JSValue : Type :=
| JUndefined
| JNull
| JBool (b : bool)
| JNum (n : Z)
| JStr (s : string)
| JArr (elems : list JSValue)
| JObj (props : list (string * JSValue)).

Inductive JSError : Type :=
| TypeError
| SyntaxError
| URIError
| ServiceError (name : string).

Inductive Result (A : Type) : Type :=
| Ok (a : A)
| Throw (e : JSError).
Arguments Ok {A} a.
Arguments Throw {A} e.

Definition rbind {A B} (r : Result A) (k : A -> Result B) : Result B :=
  match r with
  | Ok a => k a
  | Throw e => Throw e
  end.

(** ** Strings *)

(** The double-quote character, and a string holding only it. *)
Definition dquote : ascii := ascii_of_nat 34.
Definition dq : string := String dquote EmptyString.
Definition backslash : ascii := ascii_of_nat 92.
(** Line feed, as a template literal has it at each line break. *)
Definition nl : string := String (ascii_of_nat 10) EmptyString.

Definition join (sep : string) (l : list string) : string :=
  match l with
  | [] => EmptyString
  | x :: rest => fold_left (fun acc y => acc ++ sep ++ y) rest x
  end.

Definition string_of_Z (n : Z) : string :=
  NilZero.string_of_int (Z.to_int n).

(** [n] in decimal, padded with zeros on the left up to [width] digits. *)
Fixpoint zeros (k : nat) : string :=
  match k with
  | O => EmptyString
  | S k' => String "0"%char (zeros k')
  end.

Definition pad (width : nat) (n : Z) : string :=
  let s := string_of_Z n in
  zeros (width - String.length s) ++ s.

Definition hex_digit (upper : bool) (n : N) : ascii :=
  if (n <? 10)%N then ascii_of_N (48 + n)
  else ascii_of_N ((if upper then 55 else 87) + n).

(** ** Built-in operations of the language *)

Fixpoint lookup (k : string) (props : list (string * JSValue)) : option JSValue :=
  match props with
  | [] => None
  | (k', v) :: rest => if String.eqb k k' then Some v else lookup k rest
  end.

(** ToString, as a template literal and [encodeURIComponent] apply it;
    [num] is how the runtime prints a number. An object converts through
    its [toString] property: a value read from JSON is never a function, so
    an object that has a [toString] key of its own cannot be converted
    (TypeError), and any other object is ["[object Object]"]. An array joins
    the conversions of its elements, [undefined] and [null] giving the
    empty string. *)
Fixpoint ToString (num : Z -> string) (v : JSValue) : Result string :=
  match v with
  | JUndefined => Ok "undefined"
  | JNull => Ok "null"
  | JBool true => Ok "true"
  | JBool false => Ok "false"
  | JNum n => Ok (num n)
  | JStr s => Ok s
  | JArr elems =>
      rbind
        ((fix each (l : list JSValue) : Result (list string) :=
            match l with
            | [] => Ok []
            | x :: rest =>
                rbind (match x with
                       | JUndefined | JNull => Ok EmptyString
                       | _ => ToString num x
                       end)
                  (fun s => rbind (each rest) (fun ss => Ok (s :: ss)))
            end) elems)
        (fun parts => Ok (join "," parts))
  | JObj props =>
      match lookup "toString" props with
      | Some _ => Throw TypeError
      | None => Ok "[object Object]"
      end
  end.

(** ToBoolean, as [if (...)] and [&&] apply it. *)
Definition truthy (v : JSValue) : bool :=
  match v with
  | JUndefined | JNull => false
  | JBool b => b
  | JNum n => negb (n =? 0)
  | JStr s => negb (String.eqb s EmptyString)
  | JArr _ | JObj _ => true
  end.

(** [v.name] for a [name] that is neither an index, nor [length], nor a
    property of a built-in prototype (every name the handler reads is such):
    a [TypeError] on [undefined] and [null], the own property of an object,
    [undefined] on anything else. *)
Definition member (v : JSValue) (name : string) : Result JSValue :=
  match v with
  | JUndefined | JNull => Throw TypeError
  | JObj props =>
      match lookup name props with
      | Some x => Ok x
      | None => Ok JUndefined
      end
  | _ => Ok JUndefined
  end.

(** [v[0]]: the first element of an array, the property ["0"] of an object,
    the first character of a string. *)
Definition index0 (v : JSValue) : Result JSValue :=
  match v with
  | JUndefined | JNull => Throw TypeError
  | JArr [] => Ok JUndefined
  | JArr (x :: _) => Ok x
  | JObj props =>
      match lookup "0" props with
      | Some x => Ok x
      | None => Ok JUndefined
      end
  | JStr (String c _) => Ok (JStr (String c EmptyString))
  | _ => Ok JUndefined
  end.

(** [encodeURIComponent]: every byte of the UTF-8 form is kept when it is an
    unreserved character (letters, digits and [- _ . ! ~ * ' ( )]) and is
    written [%XX], in upper-case hexadecimal, otherwise. A surrogate with no
    partner, which is where the byte ED is followed by a byte from A0 to BF,
    is a [URIError]. *)
Definition unreserved (c : ascii) : bool :=
  let n := N_of_ascii c in
  ((65 <=? n) && (n <=? 90) || (97 <=? n) && (n <=? 122)
   || (48 <=? n) && (n <=? 57)
   || (n =? 45) || (n =? 95) || (n =? 46) || (n =? 33) || (n =? 126)
   || (n =? 42) || (n =? 39) || (n =? 40) || (n =? 41))%N.

Definition percent (c : ascii) : string :=
  let n := N_of_ascii c in
  String "%"%char
    (String (hex_digit true (n / 16)) (String (hex_digit true (n mod 16)) EmptyString)).

Definition lone_surrogate (c : ascii) (rest : string) : bool :=
  match rest with
  | String c' _ =>
      ((N_of_ascii c =? 237) && (160 <=? N_of_ascii c') && (N_of_ascii c' <=? 191))%N
  | EmptyString => false
  end.

Fixpoint encodeURIComponent (s : string) : Result string :=
  match s with
  | EmptyString => Ok EmptyString
  | String c rest =>
      if lone_surrogate c rest then Throw URIError
      else
        rbind (encodeURIComponent rest) (fun encoded =>
        Ok ((if unreserved c then String c EmptyString else percent c) ++ encoded))
  end.

(** [JSON.stringify(v)] with no indentation. *)
Definition escape_char (c : ascii) : string :=
  let n := N_of_ascii c in
  if (n =? 34)%N then String backslash dq
  else if (n =? 92)%N then String backslash (String backslash EmptyString)
  else if (n =? 8)%N then String backslash "b"
  else if (n =? 12)%N then String backslash "f"
  else if (n =? 10)%N then String backslash "n"
  else if (n =? 13)%N then String backslash "r"
  else if (n =? 9)%N then String backslash "t"
  else if (n <? 32)%N then
    String backslash
      ("u00" ++ String (hex_digit false (n / 16))
                  (String (hex_digit false (n mod 16)) EmptyString))
  else String c EmptyString.

Fixpoint escape (s : string) : string :=
  match s with
  | EmptyString => EmptyString
  | String c rest => escape_char c ++ escape rest
  end.

Definition quote (s : string) : string := dq ++ escape s ++ dq.

Fixpoint stringify (v : JSValue) : option string :=
  match v with
  | JUndefined => None
  | JNull => Some "null"
  | JBool true => Some "true"
  | JBool false => Some "false"
  | JNum n => Some (string_of_Z n)
  | JStr s => Some (quote s)
  | JArr elems =>
      Some ("[" ++ join ","
                     (map (fun x => match stringify x with
                                    | Some s => s
                                    | None => "null"
                                    end) elems) ++ "]")
  | JObj props =>
      Some ("{" ++ join ","
                     (flat_map (fun kv => match stringify (snd kv) with
                                          | Some s => [quote (fst kv) ++ ":" ++ s]
                                          | None => []
                                          end) props) ++ "}")
  end.

Definition JSON_stringify (v : JSValue) : JSValue :=
  match stringify v with
  | Some s => JStr s
  | None => JUndefined
  end.

(** [new Date(t).toISOString()] for [t] milliseconds since the epoch: the
    proleptic Gregorian date of day [t / 86400000], then the time of day.
    The [RangeError] of a time beyond 8.64e15 milliseconds from the epoch
    does not arise for the reading of a clock. *)
Definition civil_from_days (days : Z) : Z * Z * Z :=
  let z := days + 719468 in
  let era := z / 146097 in
  let doe := z - era * 146097 in
  let yoe := (doe - doe / 1460 + doe / 36524 - doe / 146096) / 365 in
  let doy := doe - (365 * yoe + yoe / 4 - yoe / 100) in
  let mp := (5 * doy + 2) / 153 in
  let d := doy - (153 * mp + 2) / 5 + 1 in
  let m := if mp <? 10 then mp + 3 else mp - 9 in
  let y := yoe + era * 400 + (if m <=? 2 then 1 else 0) in
  (y, m, d).

Definition year_string (y : Z) : string :=
  if (0 <=? y) && (y <=? 9999) then pad 4 y
  else if y <? 0 then "-" ++ pad 6 (- y)
  else "+" ++ pad 6 y.

Definition toISOString (t : Z) : string :=
  let '(y, m, d) := civil_from_days (t / 86400000) in
  let ms := t mod 86400000 in
  year_string y ++ "-" ++ pad 2 m ++ "-" ++ pad 2 d ++ "T"
    ++ pad 2 (ms / 3600000) ++ ":" ++ pad 2 (ms / 60000 mod 60) ++ ":"
    ++ pad 2 (ms / 1000 mod 60) ++ "." ++ pad 3 (ms mod 1000) ++ "Z".

(** ** Commands of the AWS clients *)

Module Put.
(** The [Item] of the [PutCommand] built by [trackEmailSent]. *)
Record item : Type :=
  { email : JSValue; token : string; sentAt : string; ttl : Z }.
Record params : Type := { TableName : string; Item : item }.
End Put.

Module Query.
Record params : Type :=
  { TableName : string;
    KeyConditionExpression : string;
    ExpressionAttributeValues : list (string * JSValue) }.
(** [Items] may be absent from the answer. *)
Record output : Type := { Items : option (list Put.item) }.
End Query.

Module SES.
Record content : Type := { Data : string; Charset : string }.
Record body : Type := { Text : content; Html : content }.
Record message : Type := { Subject : content; Body : body }.
Record destination : Type := { ToAddresses : list JSValue }.
Record params : Type :=
  { Source : string; Destination : destination; Message : message }.
End SES.

(** A command handed to [docClient.send] or [sesClient.send]. *)
Inductive Call : Type :=
| QueryCommand (p : Query.params)
| SendEmailCommand (p : SES.params)
| PutCommand (p : Put.params).

(** What the handler returns to the platform. *)
Record Response : Type := { statusCode : Z; body : JSValue }.

(** ** The environment of the function *)

(** The part of the Node.js runtime the file relies on without defining it:
    the process environment, [JSON.parse] (which applies ToString to its
    argument first, hence the argument type) and the printing of a
    number. *)
Record Runtime : Type :=
  { process_env : string -> option string;
    JSON_parse : JSValue -> Result JSValue;
    Number_toString : Z -> string }.

(** [`${v}`]: the conversion a template literal applies to [v]. *)
Definition template (rt : Runtime) (v : JSValue) : Result string :=
  ToString (Number_toString rt) v.

(** The external collaborators over a world [W]: DynamoDB through
    [docClient.send], SES through [sesClient.send], the [uuid] package and
    the clock behind [new Date()] and [Date.now()] (milliseconds). *)
Record Services (W : Type) : Type :=
  { docClient_query : Query.params -> W -> Result Query.output * W;
    docClient_put : Put.params -> W -> Result unit * W;
    sesClient_send : SES.params -> W -> Result unit * W;
    uuidv4 : W -> string * W;
    Date_now : W -> Z * W }.
Arguments docClient_query {W} _ _ _.
Arguments docClient_put {W} _ _ _.
Arguments sesClient_send {W} _ _ _.
Arguments uuidv4 {W} _ _.
Arguments Date_now {W} _ _.

(** The world together with the commands sent so far, oldest first. *)
Record State (W : Type) : Type := { world : W; calls : list Call }.
Arguments Build_State {W} _ _.
Arguments world {W} _.
Arguments calls {W} _.

(** ** The monad of the asynchronous functions: state, and exceptions that
    keep the state reached when they are thrown *)

Definition M (W A : Type) : Type := State W -> Result A * State W.

Definition ret {W A} (a : A) : M W A := fun st => (Ok a, st).

Definition throw {W A} (e : JSError) : M W A := fun st => (Throw e, st).

Definition bind {W A B} (m : M W A) (k : A -> M W B) : M W B :=
  fun st =>
    match m st with
    | (Ok a, st') => k a st'
    | (Throw e, st') => (Throw e, st')
    end.

Definition try_catch {W A} (m : M W A) (h : JSError -> M W A) : M W A :=
  fun st =>
    match m st with
    | (Ok a, st') => (Ok a, st')
    | (Throw e, st') => h e st'
    end.

(** A synchronous computation that touches no service. *)
Definition lift {W A} (r : Result A) : M W A := fun st => (r, st).

(** Sending a command: the world answers, the command is recorded. *)
Definition send {W A} (c : Call) (f : W -> Result A * W) : M W A :=
  fun st =>
    let (r, w') := f (world st) in
    (r, Build_State w' (calls st ++ [c])).

(** A synchronous call that reads or advances the world and cannot throw. *)
Definition ask {W A} (f : W -> A * W) : M W A :=
  fun st =>
    let (a, w') := f (world st) in
    (Ok a, Build_State w' (calls st)).

Declare Scope js_scope.
Delimit Scope js_scope with js.
Notation "x <- m ;; k" := (bind m (fun x => k))
  (at level 100, m at next level, right associativity) : js_scope.
Notation "m ;; k" := (bind m (fun _ => k))
  (at level 100, right associativity) : js_scope.
Notation "'try' m 'catch' e => h" := (try_catch m (fun e => h))
  (at level 100, e name, m at level 200, h at level 200) : js_scope.

(** ** The file's constants *)

(** [process.env.NAME || fallback]: the fallback also replaces an empty
    value. *)
Definition env_or (rt : Runtime) (name fallback : string) : string :=
  match process_env rt name with
  | Some EmptyString | None => fallback
  | Some s => s
  end.

Definition DOMAIN (rt : Runtime) : string :=
  env_or rt "DOMAIN" "dev.ritimoradiya.me".
Definition FROM_EMAIL (rt : Runtime) : string :=
  env_or rt "SES_FROM_EMAIL" "noreply@ritimoradiya.me".
Definition DYNAMODB_TABLE (rt : Runtime) : string :=
  env_or rt "DYNAMODB_TABLE" "EmailVerificationTracking".

(** ** The functions of src/index.js *)

Section Lambda.
Context {W : Type}.
Variable rt : Runtime.
Variable sv : Services W.

Local Open Scope js_scope.

(** The [params] object of [checkDuplicateEmail]. *)
Definition queryParams (email : JSValue) : Query.params :=
  {| Query.TableName := DYNAMODB_TABLE rt;
     Query.KeyConditionExpression := "email = :email";
     Query.ExpressionAttributeValues := [(":email", email)] |}.

(** [checkDuplicateEmail(email)]: a query on the e-mail key; the answer is
    [result.Items && result.Items.length > 0], and [false] when the query
    throws. *)
Definition checkDuplicateEmail (email : JSValue) : M W JSValue :=
  let params := queryParams email in
  try
    (result <- send (QueryCommand params) (docClient_query sv params) ;;
     ret (match Query.Items result with
          | None => JUndefined
          | Some items => JBool (0 <? Z.of_nat (length items))
          end))
  catch error => ret (JBool false).

(** The plain-text body of the message. *)
Definition textData (firstName verificationLink : string) : string :=
  join nl
   ["Hello " ++ firstName ++ ",";
    EmptyString;
    "Thank you for creating an account. Please verify your email address by clicking the link below:";
    EmptyString;
    verificationLink;
    EmptyString;
    "This link will expire in 1 minute.";
    EmptyString;
    "If you did not create an account, please ignore this email.";
    EmptyString;
    "Best regards,";
    "CSYE6225 Team"].

(** The HTML body of the message. *)
Definition htmlData (firstName verificationLink : string) : string :=
  join nl
   [EmptyString;
    "<!DOCTYPE html>";
    "<html>";
    "<head>";
    "  <style>";
    "    body { font-family: Arial, sans-serif; line-height: 1.6; color: #333; }";
    "    .container { max-width: 600px; margin: 0 auto; padding: 20px; }";
    "    .button { ";
    "      display: inline-block; ";
    "      padding: 12px 24px; ";
    "      background-color: #007bff; ";
    "      color: white; ";
    "      text-decoration: none; ";
    "      border-radius: 4px; ";
    "      margin: 20px 0;";
    "    }";
    "    .footer { margin-top: 30px; font-size: 12px; color: #666; }";
    "  </style>";
    "</head>";
    "<body>";
    "  <div class=" ++ dq ++ "container" ++ dq ++ ">";
    "    <h2>Verify Your Email Address</h2>";
    "    <p>Hello " ++ firstName ++ ",</p>";
    "    <p>Thank you for creating an account. Please verify your email address by clicking the button below:</p>";
    "    <a href=" ++ dq ++ verificationLink ++ dq ++ " class=" ++ dq ++ "button" ++ dq ++ ">Verify Email</a>";
    "    <p>Or copy and paste this link into your browser:</p>";
    "    <p style=" ++ dq ++ "word-break: break-all; color: #007bff;" ++ dq ++ ">" ++ verificationLink ++ "</p>";
    "    <p><strong>This link will expire in 1 minute.</strong></p>";
    "    <p>If you did not create an account, please ignore this email.</p>";
    "    <div class=" ++ dq ++ "footer" ++ dq ++ ">";
    "      <p>Best regards,<br>CSYE6225 Team</p>";
    "    </div>";
    "  </div>";
    "</body>";
    "</html>"].

(** The [params] object of [sendVerificationEmail] once [firstName] is
    converted for the plain-text body ([forText]) and for the HTML body
    ([forHtml]). *)
Definition emailMessage (email : JSValue) (forText forHtml verificationLink : string)
  : SES.params :=
  {| SES.Source := FROM_EMAIL rt;
     SES.Destination := {| SES.ToAddresses := [email] |};
     SES.Message :=
       {| SES.Subject :=
            {| SES.Data := "Verify Your Email Address"; SES.Charset := "UTF-8" |};
          SES.Body :=
            {| SES.Text :=
                 {| SES.Data := textData forText verificationLink;
                    SES.Charset := "UTF-8" |};
               SES.Html :=
                 {| SES.Data := htmlData forHtml verificationLink;
                    SES.Charset := "UTF-8" |} |} |} |}.

(** The [params] object of [sendVerificationEmail]: each of the two
    template literals converts [firstName], and throws if that throws. *)
Definition emailParams (email firstName : JSValue) (verificationLink : string)
  : Result SES.params :=
  rbind (template rt firstName) (fun forText =>
  rbind (template rt firstName) (fun forHtml =>
  Ok (emailMessage email forText forHtml verificationLink))).

(** [sendVerificationEmail(email, firstName, verificationLink)]. *)
Definition sendVerificationEmail (email firstName : JSValue)
    (verificationLink : string) : M W unit :=
  params <- lift (emailParams email firstName verificationLink) ;;
  send (SendEmailCommand params) (sesClient_send sv params).

(** The [params] object of [trackEmailSent], from the two clock readings
    (milliseconds): [new Date()] for [sentAt], [Date.now()] for [ttl]. *)
Definition putParams (email : JSValue) (token : string) (t_sent t_ttl : Z)
  : Put.params :=
  {| Put.TableName := DYNAMODB_TABLE rt;
     Put.Item :=
       {| Put.email := email;
          Put.token := token;
          Put.sentAt := toISOString t_sent;
          Put.ttl := t_ttl / 1000 + 60 * 60 * 24 |} |}.

(** [trackEmailSent(email, token)]. *)
Definition trackEmailSent (email : JSValue) (token : string) : M W unit :=
  t_sent <- ask (Date_now sv) ;;
  t_ttl <- ask (Date_now sv) ;;
  let params := putParams email token t_sent t_ttl in
  send (PutCommand params) (docClient_put sv params).

(** [event.Records[0].Sns.Message]. *)
Definition envelope (event : JSValue) : Result JSValue :=
  rbind (member event "Records") (fun Records =>
  rbind (index0 Records) (fun record =>
  rbind (member record "Sns") (fun Sns =>
  member Sns "Message"))).

(** [JSON.parse(event.Records[0].Sns.Message)]. *)
Definition snsMessage (event : JSValue) : Result JSValue :=
  rbind (envelope event) (JSON_parse rt).

(** The link for an [email] parameter already encoded. *)
Definition verifyUrl (encoded token : string) : string :=
  "https://" ++ DOMAIN rt ++ "/v1/user/verify?email=" ++ encoded ++ "&token=" ++ token.

(** The template literal bound to [verificationLink] in the handler:
    [encodeURIComponent(email)] converts [email] to a string and encodes
    it, and either step can throw. *)
Definition verificationLink (email : JSValue) (token : string) : Result string :=
  rbind (template rt email) (fun address =>
  rbind (encodeURIComponent address) (fun encoded =>
  Ok (verifyUrl encoded token))).

Definition alreadySent : Response :=
  {| statusCode := 200;
     body := JSON_stringify (JObj [("message", JStr "Email already sent")]) |}.

Definition sentSuccessfully : Response :=
  {| statusCode := 200;
     body := JSON_stringify (JObj [("message", JStr "Email sent successfully")]) |}.

(** [exports.handler]. Of each [console.log] with a template literal on
    [email] (lines 32, 37 and 54) the conversion of [email] is kept. The
    [catch] clause logs and throws the error again. *)
Definition handler (event : JSValue) : M W Response :=
  try
    (message <- lift (snsMessage event) ;;
     email <- lift (member message "email") ;;
     firstName <- lift (member message "firstName") ;;
     lastName <- lift (member message "lastName") ;;
     lift (template rt email) ;;
     isDuplicate <- checkDuplicateEmail email ;;
     if truthy isDuplicate then
       lift (template rt email) ;;
       ret alreadySent
     else
       token <- ask (uuidv4 sv) ;;
       link <- lift (verificationLink email token) ;;
       sendVerificationEmail email firstName link ;;
       trackEmailSent email token ;;
       lift (template rt email) ;;
       ret sentSuccessfully)
  catch error => throw error.

End Lambda.

(** ** A reference [JSON.parse]

    A recursive-descent reader of JSON text, used to run the handler on
    concrete events. It covers the texts whose numbers are integers and
    whose surrogates, if any, are written as escapes; on a number with a
    fraction or an exponent it answers as on a syntax error. *)

Module JSONText.

Definition is_ws (c : ascii) : bool :=
  let n := N_of_ascii c in
  ((n =? 32) || (n =? 9) || (n =? 10) || (n =? 13))%N.

Fixpoint skip_ws (s : string) : string :=
  match s with
  | String c rest => if is_ws c then skip_ws rest else s
  | EmptyString => s
  end.

Definition digit_val (c : ascii) : option Z :=
  let n := N_of_ascii c in
  if ((48 <=? n) && (n <=? 57))%N then Some (Z.of_N n - 48) else None.

Definition hex_val (c : ascii) : option N :=
  let n := N_of_ascii c in
  if ((48 <=? n) && (n <=? 57))%N then Some (n - 48)%N
  else if ((65 <=? n) && (n <=? 70))%N then Some (n - 55)%N
  else if ((97 <=? n) && (n <=? 102))%N then Some (n - 87)%N
  else None.

Definition hex4 (a b c d : ascii) : option N :=
  match hex_val a, hex_val b, hex_val c, hex_val d with
  | Some x, Some y, Some z, Some t => Some (((x * 16 + y) * 16 + z) * 16 + t)%N
  | _, _, _, _ => None
  end.

Definition byte (n : N) : string := String (ascii_of_N n) EmptyString.

(** UTF-8 of a code point; a surrogate is written like any other code
    point of the basic plane. *)
Definition utf8 (cp : N) : string :=
  if (cp <? 128)%N then byte cp
  else if (cp <? 2048)%N then byte (192 + cp / 64) ++ byte (128 + cp mod 64)
  else if (cp <? 65536)%N then
    byte (224 + cp / 4096) ++ byte (128 + (cp / 64) mod 64) ++ byte (128 + cp mod 64)
  else
    byte (240 + cp / 262144) ++ byte (128 + (cp / 4096) mod 64)
      ++ byte (128 + (cp / 64) mod 64) ++ byte (128 + cp mod 64).

Definition is_high (cp : N) : bool := ((55296 <=? cp) && (cp <=? 56319))%N.
Definition is_low (cp : N) : bool := ((56320 <=? cp) && (cp <=? 57343))%N.

(** The code point a high and a low surrogate stand for together. *)
Definition paired (high low : N) : N :=
  (65536 + (high - 55296) * 1024 + (low - 56320))%N.

Definition unescape (c : ascii) : option string :=
  if Ascii.eqb c dquote then Some dq
  else if Ascii.eqb c backslash then Some (String backslash EmptyString)
  else if Ascii.eqb c "/" then Some "/"
  else if Ascii.eqb c "b" then Some (byte 8)
  else if Ascii.eqb c "f" then Some (byte 12)
  else if Ascii.eqb c "n" then Some (byte 10)
  else if Ascii.eqb c "r" then Some (byte 13)
  else if Ascii.eqb c "t" then Some (byte 9)
  else None.

(** The characters of a string up to its closing quote, and what follows
    the quote. A [\u] escape of a high surrogate followed by one of a low
    surrogate is the one code point they stand for. *)
Fixpoint chars (s : string) : option (string * string) :=
  match s with
  | EmptyString => None
  | String c rest =>
      if Ascii.eqb c dquote then Some (EmptyString, rest)
      else if Ascii.eqb c backslash then
        match rest with
        | String "u" (String h1 (String h2 (String h3 (String h4 rest')))) =>
            match hex4 h1 h2 h3 h4 with
            | Some cp =>
                let alone :=
                  match chars rest' with
                  | Some (str, after) => Some (utf8 cp ++ str, after)
                  | None => None
                  end in
                match rest' with
                | String b (String u (String g1 (String g2 (String g3 (String g4 rest''))))) =>
                    match hex4 g1 g2 g3 g4 with
                    | Some low =>
                        if Ascii.eqb b backslash && Ascii.eqb u "u"
                           && is_high cp && is_low low
                        then
                          match chars rest'' with
                          | Some (str, after) => Some (utf8 (paired cp low) ++ str, after)
                          | None => None
                          end
                        else alone
                    | None => alone
                    end
                | _ => alone
                end
            | None => None
            end
        | String e rest' =>
            match unescape e, chars rest' with
            | Some u, Some (str, after) => Some (u ++ str, after)
            | _, _ => None
            end
        | EmptyString => None
        end
      else if (N_of_ascii c <? 32)%N then None
      else
        match chars rest with
        | Some (str, after) => Some (String c str, after)
        | None => None
        end
  end.

(** The digits at the head of [s], read after [acc], and what follows. *)
Fixpoint digits (acc : Z) (s : string) : Z * string :=
  match s with
  | String c rest =>
      match digit_val c with
      | Some d => digits (acc * 10 + d) rest
      | None => (acc, s)
      end
  | EmptyString => (acc, s)
  end.

(** An integer with no leading zero, no fraction and no exponent. *)
Definition natural (s : string) : option (Z * string) :=
  match s with
  | String c rest =>
      match digit_val c with
      | Some d =>
          let '(n, after) := if d =? 0 then (0, rest) else digits d rest in
          match after with
          | String c' _ =>
              if Ascii.eqb c' "." || Ascii.eqb c' "e" || Ascii.eqb c' "E"
                 || match digit_val c' with Some _ => true | None => false end
              then None else Some (n, after)
          | EmptyString => Some (n, after)
          end
      | None => None
      end
  | EmptyString => None
  end.

Fixpoint strip (prefix s : string) : option string :=
  match prefix, s with
  | EmptyString, _ => Some s
  | String a p', String b s' => if Ascii.eqb a b then strip p' s' else None
  | String _ _, EmptyString => None
  end.

(** A later member replaces an earlier one of the same name. *)
Fixpoint set_member (k : string) (v : JSValue) (props : list (string * JSValue))
  : list (string * JSValue) :=
  match props with
  | [] => [(k, v)]
  | (k', v') :: rest =>
      if String.eqb k k' then (k, v) :: rest else (k', v') :: set_member k v rest
  end.

Fixpoint value (fuel : nat) (s : string) : option (JSValue * string) :=
  match fuel with
  | O => None
  | S fuel' =>
      match skip_ws s with
      | EmptyString => None
      | String c rest =>
          if Ascii.eqb c "{" then
            match skip_ws rest with
            | String "}" after => Some (JObj [], after)
            | _ => members fuel' rest []
            end
          else if Ascii.eqb c "[" then
            match skip_ws rest with
            | String "]" after => Some (JArr [], after)
            | _ => elements fuel' rest []
            end
          else if Ascii.eqb c dquote then
            match chars rest with
            | Some (str, after) => Some (JStr str, after)
            | None => None
            end
          else if Ascii.eqb c "-" then
            match natural rest with
            | Some (n, after) => Some (JNum (- n), after)
            | None => None
            end
          else
            match strip "true" (String c rest), strip "false" (String c rest),
                  strip "null" (String c rest) with
            | Some after, _, _ => Some (JBool true, after)
            | _, Some after, _ => Some (JBool false, after)
            | _, _, Some after => Some (JNull, after)
            | _, _, _ =>
                match natural (String c rest) with
                | Some (n, after) => Some (JNum n, after)
                | None => None
                end
            end
      end
  end
with elements (fuel : nat) (s : string) (acc : list JSValue)
  : option (JSValue * string) :=
  match fuel with
  | O => None
  | S fuel' =>
      match value fuel' s with
      | Some (v, after) =>
          match skip_ws after with
          | String "," more => elements fuel' more (acc ++ [v])
          | String "]" more => Some (JArr (acc ++ [v]), more)
          | _ => None
          end
      | None => None
      end
  end
with members (fuel : nat) (s : string) (acc : list (string * JSValue))
  : option (JSValue * string) :=
  match fuel with
  | O => None
  | S fuel' =>
      match skip_ws s with
      | String c rest =>
          if Ascii.eqb c dquote then
            match chars rest with
            | Some (k, after) =>
                match skip_ws after with
                | String ":" more =>
                    match value fuel' more with
                    | Some (v, after') =>
                        match skip_ws after' with
                        | String "," more' => members fuel' more' (set_member k v acc)
                        | String "}" more' => Some (JObj (set_member k v acc), more')
                        | _ => None
                        end
                    | None => None
                    end
                | _ => None
                end
            | None => None
            end
          else None
      | EmptyString => None
      end
  end.

(** [JSON.parse(v)]: the text is ToString of the argument, and nothing but
    white space may follow the value. *)
Definition parse (v : JSValue) : Result JSValue :=
  rbind (ToString string_of_Z v) (fun text =>
  match value (2 * String.length text + 2) text with
  | Some (x, after) =>
      match skip_ws after with
      | EmptyString => Ok x
      | String _ _ => Throw SyntaxError
      end
  | None => Throw SyntaxError
  end).

End JSONText.

(** ** An in-memory stand-in for the services

    A table keyed by the e-mail string, an outbox, a supply of identifiers
    and a clock, each with an optional fault to inject. It plays the part
    the mocked clients play in a unit test of the handler. *)

Module Mem.

Record t : Type :=
  { table : list Put.item;
    outbox : list SES.params;
    uuids : list string;
    now : Z;
    query_fault : option JSError;
    ses_fault : option JSError;
    put_fault : option JSError }.

Definition has_key (key : string) (it : Put.item) : bool :=
  match Put.email it with
  | JStr e => String.eqb key e
  | _ => false
  end.

Definition query (p : Query.params) (w : t) : Result Query.output * t :=
  match query_fault w with
  | Some e => (Throw e, w)
  | None =>
      match lookup ":email" (Query.ExpressionAttributeValues p) with
      | Some (JStr key) =>
          (Ok {| Query.Items := Some (filter (has_key key) (table w)) |}, w)
      | _ => (Throw (ServiceError "ValidationException"), w)
      end
  end.

Definition put (p : Put.params) (w : t) : Result unit * t :=
  match put_fault w with
  | Some e => (Throw e, w)
  | None =>
      match Put.email (Put.Item p) with
      | JStr key =>
          (Ok tt,
           {| table := filter (fun it => negb (has_key key it)) (table w) ++ [Put.Item p];
              outbox := outbox w; uuids := uuids w; now := now w;
              query_fault := query_fault w; ses_fault := ses_fault w;
              put_fault := put_fault w |})
      | _ => (Throw (ServiceError "ValidationException"), w)
      end
  end.

Definition deliver (p : SES.params) (w : t) : Result unit * t :=
  match ses_fault w with
  | Some e => (Throw e, w)
  | None =>
      (Ok tt,
       {| table := table w; outbox := outbox w ++ [p]; uuids := uuids w;
          now := now w; query_fault := query_fault w; ses_fault := ses_fault w;
          put_fault := put_fault w |})
  end.

Definition next_uuid (w : t) : string * t :=
  match uuids w with
  | u :: rest =>
      (u,
       {| table := table w; outbox := outbox w; uuids := rest; now := now w;
          query_fault := query_fault w; ses_fault := ses_fault w;
          put_fault := put_fault w |})
  | [] => ("00000000-0000-4000-8000-000000000000", w)
  end.

(** Each reading of the clock is one millisecond after the previous one. *)
Definition read_clock (w : t) : Z * t :=
  (now w,
   {| table := table w; outbox := outbox w; uuids := uuids w; now := now w + 1;
      query_fault := query_fault w; ses_fault := ses_fault w;
      put_fault := put_fault w |}).

Definition services : Services t :=
  {| docClient_query := query;
     docClient_put := put;
     sesClient_send := deliver;
     uuidv4 := next_uuid;
     Date_now := read_clock |}.

(** No variable of the environment is set: the file's defaults apply.
    Numbers print in decimal, as Node.js prints the integers up to 2^53. *)
Definition runtime : Runtime :=
  {| process_env := fun _ => None;
     JSON_parse := JSONText.parse;
     Number_toString := string_of_Z |}.

Definition start (w : t) : State t := {| world := w; calls := [] |}.

End Mem.

(** ** Sample events *)

Module Sample.

(** [{"email":"a@b.com","firstName":"John","lastName":<lastName>}]
    followed by the members in [extra]. *)
Definition message (lastName extra : string) : string :=
  "{" ++ dq ++ "email" ++ dq ++ ":" ++ dq ++ "a@b.com" ++ dq ++ ","
      ++ dq ++ "firstName" ++ dq ++ ":" ++ dq ++ "John" ++ dq ++ ","
      ++ dq ++ "lastName" ++ dq ++ ":" ++ dq ++ lastName ++ dq ++ extra ++ "}".

Definition record (text : string) : JSValue :=
  JObj [("Sns", JObj [("Message", JStr text)])].

Definition event (text : string) : JSValue :=
  JObj [("Records", JArr [record text])].

(** The event of a registration that carries no token. *)
Definition plain : JSValue := event (message "Doe" EmptyString).

(** The same registration with a token made by the web application. *)
Definition with_token : JSValue :=
  event (message "Doe"
           ("," ++ dq ++ "token" ++ dq ++ ":" ++ dq ++ "uuid-from-webapp" ++ dq)).

(** The same registration under another last name. *)
Definition renamed : JSValue := event (message "Roe" EmptyString).

(** The registration followed by two more records in the same envelope. *)
Definition crowded : JSValue :=
  JObj [("Records",
         JArr [record (message "Doe" EmptyString);
               record (message "Roe" EmptyString);
               JNull])].

(** An event whose message is not JSON text. *)
Definition garbled : JSValue := event "not json".

(** An event with no record in its envelope. *)
Definition empty : JSValue := JObj [("Records", JArr [])].

(** The message of [plain], parsed. *)
Definition parsed : JSValue :=
  JObj [("email", JStr "a@b.com"); ("firstName", JStr "John");
        ("lastName", JStr "Doe")].

Definition uuid : string := "3b241101-e2bb-4255-8caf-4136c566a962".

(** An empty table, one identifier ready, the clock at
    2026-11-03T00:00:00.999Z, no fault. *)
Definition fresh : Mem.t :=
  {| Mem.table := []; Mem.outbox := []; Mem.uuids := [uuid];
     Mem.now := 1793664000999;
     Mem.query_fault := None; Mem.ses_fault := None; Mem.put_fault := None |}.

Definition stored : Put.item :=
  {| Put.email := JStr "a@b.com"; Put.token := "earlier-token";
     Put.sentAt := "2026-11-02T12:00:00.000Z"; Put.ttl := 1793707200 |}.

(** The query of the sample events. *)
Definition query : Call := QueryCommand (queryParams Mem.runtime (JStr "a@b.com")).

(** The message of the sample events. *)
Definition mail : SES.params :=
  emailMessage Mem.runtime (JStr "a@b.com") "John" "John"
    (verifyUrl Mem.runtime "a%40b.com" uuid).

(** [w] once its first identifier is drawn. *)
Definition drawn (w : Mem.t) : Mem.t := snd (Mem.next_uuid w).

(** [w] once [mail] is in its outbox. *)
Definition mailed (w : Mem.t) : Mem.t := snd (Mem.deliver mail w).

(** [w] once its clock is read. *)
Definition ticked (w : Mem.t) : Mem.t := snd (Mem.read_clock w).

(** The table already holds a record for [a@b.com]. *)
Definition seen : Mem.t :=
  {| Mem.table := [stored]; Mem.outbox := []; Mem.uuids := [uuid];
     Mem.now := 1793664000999;
     Mem.query_fault := None; Mem.ses_fault := None; Mem.put_fault := None |}.

(** The table holds the record but cannot be read. *)
Definition unreadable : Mem.t :=
  {| Mem.table := [stored]; Mem.outbox := []; Mem.uuids := [uuid];
     Mem.now := 1793664000999;
     Mem.query_fault := Some (ServiceError "ProvisionedThroughputExceededException");
     Mem.ses_fault := None; Mem.put_fault := None |}.

(** SES rejects the message. *)
Definition undeliverable : Mem.t :=
  {| Mem.table := []; Mem.outbox := []; Mem.uuids := [uuid];
     Mem.now := 1793664000999;
     Mem.query_fault := None;
     Mem.ses_fault := Some (ServiceError "MessageRejected");
     Mem.put_fault := None |}.

(** DynamoDB refuses the write. *)
Definition unwritable : Mem.t :=
  {| Mem.table := []; Mem.outbox := []; Mem.uuids := [uuid];
     Mem.now := 1793664000999;
     Mem.query_fault := None; Mem.ses_fault := None;
     Mem.put_fault := Some (ServiceError "ProvisionedThroughputExceededException") |}.

(** The sample event of the README: the first name is under [first_name]. *)
Definition snake_case : JSValue :=
  event ("{" ++ dq ++ "email" ++ dq ++ ":" ++ dq ++ "test@example.com" ++ dq ++ ","
             ++ dq ++ "first_name" ++ dq ++ ":" ++ dq ++ "Test" ++ dq ++ ","
             ++ dq ++ "token" ++ dq ++ ":" ++ dq ++ "test-uuid" ++ dq ++ "}").

(** Its message, parsed. *)
Definition snake_case_fields : list (string * JSValue) :=
  [("email", JStr "test@example.com"); ("first_name", JStr "Test");
   ("token", JStr "test-uuid")].

(** An event whose message has no [email]. *)
Definition anonymous : JSValue :=
  event ("{" ++ dq ++ "firstName" ++ dq ++ ":" ++ dq ++ "John" ++ dq ++ "}").

(** An event whose only record has no [Sns]. *)
Definition bare : JSValue := JObj [("Records", JArr [JObj []])].

(** A first name that is an object with a [toString] key of its own:
    [{"toString":1}]. *)
Definition unprintable : JSValue := JObj [("toString", JNum 1)].

(** The registration of [plain] with [{"toString":1}] as its first name. *)
Definition unprintable_name : JSValue :=
  event ("{" ++ dq ++ "email" ++ dq ++ ":" ++ dq ++ "a@b.com" ++ dq ++ ","
             ++ dq ++ "firstName" ++ dq ++ ":{" ++ dq ++ "toString" ++ dq ++ ":1}}").

(** Its message, parsed. *)
Definition unprintable_name_fields : JSValue :=
  JObj [("email", JStr "a@b.com"); ("firstName", unprintable)].

(** A registration whose e-mail is [{"toString":1}]. *)
Definition unprintable_email : JSValue :=
  event ("{" ++ dq ++ "email" ++ dq ++ ":{" ++ dq ++ "toString" ++ dq ++ ":1},"
             ++ dq ++ "firstName" ++ dq ++ ":" ++ dq ++ "John" ++ dq ++ "}").

(** A registration whose e-mail is the one escape [\ud800], a high
    surrogate with no partner. *)
Definition lone : JSValue :=
  event ("{" ++ dq ++ "email" ++ dq ++ ":" ++ dq ++ String backslash "ud800" ++ dq ++ ","
             ++ dq ++ "firstName" ++ dq ++ ":" ++ dq ++ "John" ++ dq ++ "}").

(** That e-mail as the model holds it: the bytes ED A0 80. *)
Definition lone_address : string :=
  String (ascii_of_nat 237) (String (ascii_of_nat 160) (String (ascii_of_nat 128) EmptyString)).

End Sample.

(** ** The handler after the duplicate check, call by call *)

Section AfterCheck.
Context {W : Type}.
Variable rt : Runtime.
Variable sv : Services W.

(** What the handler does once the message is read, [email] has been
    converted for the log of line 32 and the duplicate check has answered
    [d]: everything after line 35, one step after the other. *)
Definition after_check (email firstName : JSValue) (d : JSValue) (st1 : State W)
  : Result Response * State W :=
  if truthy d then (Ok alreadySent, st1)
  else
    let (token, w2) := uuidv4 sv (world st1) in
    match verificationLink rt email token with
    | Throw e => (Throw e, Build_State w2 (calls st1))
    | Ok link =>
        match emailParams rt email firstName link with
        | Throw e => (Throw e, Build_State w2 (calls st1))
        | Ok mail =>
            let (sent, w3) := sesClient_send sv mail w2 in
            match sent with
            | Throw e => (Throw e, Build_State w3 (calls st1 ++ [SendEmailCommand mail]))
            | Ok _ =>
                let (t_sent, w4) := Date_now sv w3 in
                let (t_ttl, w5) := Date_now sv w4 in
                let item := putParams rt email token t_sent t_ttl in
                let (written, w6) := docClient_put sv item w5 in
                (match written with
                 | Ok _ => Ok sentSuccessfully
                 | Throw e => Throw e
                 end,
                 Build_State w6 (calls st1 ++ [SendEmailCommand mail; PutCommand item]))
            end
        end
    end.

End AfterCheck.

(** ** Reading a percent-encoded component back

    What the verification endpoint does with the [email] parameter of the
    link: [%XX] is the byte with that hexadecimal code, any other character
    stands for itself. *)

Fixpoint percent_decode (s : string) : option string :=
  match s with
  | EmptyString => Some EmptyString
  | String c rest =>
      if Ascii.eqb c "%" then
        match rest with
        | String h1 (String h2 rest') =>
            match JSONText.hex_val h1, JSONText.hex_val h2, percent_decode rest' with
            | Some a, Some b, Some str => Some (String (ascii_of_N (a * 16 + b)) str)
            | _, _, _ => None
            end
        | _ => None
        end
      else
        match percent_decode rest with
        | Some str => Some (String c str)
        | None => None
        end
  end.

(** Only unreserved characters and [%] occur in an encoded component. *)
Fixpoint url_safe (s : string) : bool :=
  match s with
  | EmptyString => true
  | String c rest => (unreserved c || Ascii.eqb c "%") && url_safe rest
  end.

(** ** Observations on a list of calls *)

(** The messages handed to SES, in order. *)
Fixpoint emails_of (cs : list Call) : list SES.params :=
  match cs with
  | [] => []
  | SendEmailCommand p :: rest => p :: emails_of rest
  | _ :: rest => emails_of rest
  end.

(** The tracking records handed to DynamoDB, in order. *)
Fixpoint records_of (cs : list Call) : list Put.params :=
  match cs with
  | [] => []
  | PutCommand p :: rest => p :: records_of rest
  | _ :: rest => records_of rest
  end.

(** The queries handed to DynamoDB, in order. *)
Fixpoint queries_of (cs : list Call) : list Query.params :=
  match cs with
  | [] => []
  | QueryCommand p :: rest => p :: queries_of rest
  | _ :: rest => queries_of rest
  end.

(** * Properties *)

(** ** The built-ins on concrete inputs *)

Example toISOString_epoch : toISOString 0 = "1970-01-01T00:00:00.000Z".
Proof. reflexivity. Qed.

Example toISOString_leap_day : toISOString 1709164800000 = "2024-02-29T00:00:00.000Z".
Proof. vm_compute. reflexivity. Qed.

Example toISOString_before_epoch : toISOString (-1) = "1969-12-31T23:59:59.999Z".
Proof. vm_compute. reflexivity. Qed.

Example encodeURIComponent_reserved :
  encodeURIComponent "a+b c/d?e=f&g#h-_.!~*'()Z9"
  = Ok "a%2Bb%20c%2Fd%3Fe%3Df%26g%23h-_.!~*'()Z9".
Proof. vm_compute. reflexivity. Qed.

Example encodeURIComponent_lone_surrogate :
  encodeURIComponent Sample.lone_address = Throw URIError.
Proof. vm_compute. reflexivity. Qed.

Example ToString_array :
  ToString string_of_Z (JArr [JNum 1; JNull; JStr "a"; JArr [JNum (-2); JNum 3]])
  = Ok "1,,a,-2,3".
Proof. vm_compute. reflexivity. Qed.

Example ToString_own_toString :
  ToString string_of_Z Sample.unprintable = Throw TypeError
  /\ ToString string_of_Z (JArr [JNum 1; JArr [Sample.unprintable]]) = Throw TypeError
  /\ ToString string_of_Z (JObj [("valueOf", JNum 1)]) = Ok "[object Object]".
Proof. vm_compute. repeat split. Qed.

Example alreadySent_body :
  body alreadySent
  = JStr ("{" ++ dq ++ "message" ++ dq ++ ":" ++ dq ++ "Email already sent" ++ dq ++ "}").
Proof. vm_compute. reflexivity. Qed.

Example sentSuccessfully_body :
  body sentSuccessfully
  = JStr ("{" ++ dq ++ "message" ++ dq ++ ":" ++ dq ++ "Email sent successfully" ++ dq ++ "}").
Proof. vm_compute. reflexivity. Qed.

Example parse_sample_message :
  JSONText.parse (JStr (Sample.message "Doe" EmptyString))
  = Ok (JObj [("email", JStr "a@b.com"); ("firstName", JStr "John");
              ("lastName", JStr "Doe")]).
Proof. vm_compute. reflexivity. Qed.

Example parse_rejects_prose : JSONText.parse (JStr "not json") = Throw SyntaxError.
Proof. vm_compute. reflexivity. Qed.

Example parse_undefined : JSONText.parse JUndefined = Throw SyntaxError.
Proof. vm_compute. reflexivity. Qed.

Example parse_lone_surrogate :
  rbind (snsMessage Mem.runtime Sample.lone) (fun m => member m "email")
  = Ok (JStr Sample.lone_address).
Proof. vm_compute. reflexivity. Qed.

(** ** Property access *)

Lemma member_throws v name e :
  member v name = Throw e -> v = JUndefined \/ v = JNull.
Proof.
  destruct v; simpl; auto; try discriminate.
  destruct (lookup name props); discriminate.
Qed.

(** Whether [v.name] throws does not depend on [name]. *)
Lemma member_defined v name name' x :
  member v name = Ok x -> exists y, member v name' = Ok y.
Proof.
  destruct v; simpl; try discriminate; eauto.
  intros _. destruct (lookup name' props); eauto.
Qed.

Lemma member_throws_all v name name' e :
  member v name = Throw e -> member v name' = Throw e.
Proof.
  intros H. destruct (member_throws _ _ _ H); subst; simpl in *; assumption.
Qed.

Lemma emails_of_app cs cs' : emails_of (cs ++ cs') = (emails_of cs ++ emails_of cs')%list.
Proof.
  induction cs as [| c cs IH]; simpl; [reflexivity |].
  destruct c; simpl; rewrite IH; reflexivity.
Qed.

Lemma records_of_app cs cs' : records_of (cs ++ cs') = (records_of cs ++ records_of cs')%list.
Proof.
  induction cs as [| c cs IH]; simpl; [reflexivity |].
  destruct c; simpl; rewrite IH; reflexivity.
Qed.

(** ** The link and the message, when they can be built *)

Section Built.
Variable rt : Runtime.

Lemma verificationLink_built email token link :
  verificationLink rt email token = Ok link ->
  exists address encoded,
    template rt email = Ok address
    /\ encodeURIComponent address = Ok encoded
    /\ link = verifyUrl rt encoded token.
Proof.
  unfold verificationLink.
  destruct (template rt email) as [address | e] eqn:Haddress; cbn [rbind];
    [| discriminate].
  destruct (encodeURIComponent address) as [encoded | e] eqn:Hencoded; cbn [rbind];
    [| discriminate].
  intros [= <-]. exists address, encoded. auto.
Qed.

Lemma verificationLink_of email token address encoded :
  template rt email = Ok address ->
  encodeURIComponent address = Ok encoded ->
  verificationLink rt email token = Ok (verifyUrl rt encoded token).
Proof.
  intros Haddress Hencoded. unfold verificationLink.
  rewrite Haddress. cbn [rbind]. rewrite Hencoded. reflexivity.
Qed.

(** Whether the link can be built does not depend on the token. *)
Lemma verificationLink_throws email token e :
  verificationLink rt email token = Throw e ->
  template rt email = Throw e
  \/ exists address, template rt email = Ok address
                     /\ encodeURIComponent address = Throw e.
Proof.
  unfold verificationLink.
  destruct (template rt email) as [address | e'] eqn:Haddress; cbn [rbind];
    [| intros [= <-]; auto].
  destruct (encodeURIComponent address) as [encoded | e'] eqn:Hencoded;
    cbn [rbind]; [discriminate |].
  intros [= <-]. right. exists address. auto.
Qed.

Lemma verificationLink_throws_of email token address e :
  template rt email = Ok address ->
  encodeURIComponent address = Throw e ->
  verificationLink rt email token = Throw e.
Proof.
  intros Haddress Hencoded. unfold verificationLink.
  rewrite Haddress. cbn [rbind]. rewrite Hencoded. reflexivity.
Qed.

Lemma emailParams_built email firstName link mail :
  emailParams rt email firstName link = Ok mail ->
  exists greeting,
    template rt firstName = Ok greeting
    /\ mail = emailMessage rt email greeting greeting link.
Proof.
  unfold emailParams.
  destruct (template rt firstName) as [greeting | e] eqn:Hgreeting; cbn [rbind];
    [| discriminate].
  intros [= <-]. exists greeting. auto.
Qed.

Lemma emailParams_of email firstName link greeting :
  template rt firstName = Ok greeting ->
  emailParams rt email firstName link = Ok (emailMessage rt email greeting greeting link).
Proof.
  intros Hgreeting. unfold emailParams. rewrite Hgreeting. reflexivity.
Qed.

Lemma emailParams_throws email firstName link e :
  emailParams rt email firstName link = Throw e <-> template rt firstName = Throw e.
Proof.
  unfold emailParams.
  destruct (template rt firstName) as [greeting | e']; cbn [rbind];
    split; intros H; try discriminate; injection H as ->; reflexivity.
Qed.

End Built.

(** ** The steps of the handler *)

Section Steps.
Context {W : Type}.
Variable rt : Runtime.
Variable sv : Services W.

(** The duplicate check sends exactly one query and never throws. *)
Lemma checkDuplicateEmail_query email st :
  exists d w1,
    checkDuplicateEmail rt sv email st
    = (Ok d, Build_State w1 (calls st ++ [QueryCommand (queryParams rt email)])).
Proof.
  unfold checkDuplicateEmail, try_catch, bind, send, ret.
  destruct (docClient_query sv (queryParams rt email) (world st)) as [[out | e] w1];
    eauto.
Qed.

Lemma checkDuplicateEmail_found email st out items w1 :
  docClient_query sv (queryParams rt email) (world st) = (Ok out, w1) ->
  Query.Items out = Some items ->
  checkDuplicateEmail rt sv email st
  = (Ok (JBool (0 <? Z.of_nat (length items))),
     Build_State w1 (calls st ++ [QueryCommand (queryParams rt email)])).
Proof.
  intros Hq Hitems.
  unfold checkDuplicateEmail, try_catch, bind, send, ret.
  rewrite Hq, Hitems. reflexivity.
Qed.

Lemma checkDuplicateEmail_no_items email st out w1 :
  docClient_query sv (queryParams rt email) (world st) = (Ok out, w1) ->
  Query.Items out = None ->
  checkDuplicateEmail rt sv email st
  = (Ok JUndefined,
     Build_State w1 (calls st ++ [QueryCommand (queryParams rt email)])).
Proof.
  intros Hq Hitems.
  unfold checkDuplicateEmail, try_catch, bind, send, ret.
  rewrite Hq, Hitems. reflexivity.
Qed.

Lemma checkDuplicateEmail_error email st e w1 :
  docClient_query sv (queryParams rt email) (world st) = (Throw e, w1) ->
  checkDuplicateEmail rt sv email st
  = (Ok (JBool false),
     Build_State w1 (calls st ++ [QueryCommand (queryParams rt email)])).
Proof.
  intros Hq.
  unfold checkDuplicateEmail, try_catch, bind, send, ret.
  rewrite Hq. reflexivity.
Qed.

(** The answer of the duplicate check, from the answer of the query. *)
Lemma duplicate_check_cases email st answer w1 :
  docClient_query sv (queryParams rt email) (world st) = (answer, w1) ->
  exists d,
    checkDuplicateEmail rt sv email st
    = (Ok d, Build_State w1 (calls st ++ [QueryCommand (queryParams rt email)]))
    /\ (truthy d = true
        <-> exists out record records,
              answer = Ok out /\ Query.Items out = Some (record :: records)).
Proof.
  intros Hquery. destruct answer as [out | e].
  - destruct (Query.Items out) as [[| record records] |] eqn:Hitems.
    + rewrite (checkDuplicateEmail_found email st out [] w1 Hquery Hitems).
      eexists. split; [reflexivity |]. split; [discriminate |].
      intros (out' & r & rs & [= <-] & Hsome). congruence.
    + rewrite (checkDuplicateEmail_found email st out _ w1 Hquery Hitems).
      eexists. split; [reflexivity |]. split; [eauto | reflexivity].
    + rewrite (checkDuplicateEmail_no_items email st out w1 Hquery Hitems).
      eexists. split; [reflexivity |]. split; [discriminate |].
      intros (out' & r & rs & [= <-] & Hsome). congruence.
  - rewrite (checkDuplicateEmail_error email st e w1 Hquery).
    eexists. split; [reflexivity |]. split; [discriminate |].
    intros (out' & r & rs & Hout & _). discriminate.
Qed.

Lemma handler_after_check event st message email firstName label d st1 :
  snsMessage rt event = Ok message ->
  member message "email" = Ok email ->
  member message "firstName" = Ok firstName ->
  template rt email = Ok label ->
  checkDuplicateEmail rt sv email st = (Ok d, st1) ->
  handler rt sv event st = after_check rt sv email firstName d st1.
Proof.
  intros Hmsg Hemail Hfirst Hlabel Hcheck.
  destruct (member_defined _ _ "lastName" _ Hemail) as [lastName Hlast].
  unfold handler, after_check, try_catch, bind, lift.
  rewrite Hmsg, Hemail, Hfirst, Hlast, Hlabel, Hcheck.
  destruct (truthy d); [reflexivity |].
  unfold ask, sendVerificationEmail, trackEmailSent, bind, send, ask, ret, throw, lift.
  destruct (uuidv4 sv (world st1)) as [token w2]; cbn [world calls].
  destruct (verificationLink rt email token) as [link | e]; [| reflexivity].
  destruct (emailParams rt email firstName link) as [mail | e]; [| reflexivity].
  cbn [world calls].
  destruct (sesClient_send sv mail w2) as [[[] | e] w3]; cbn [world calls];
    [| reflexivity].
  destruct (Date_now sv w3) as [t_sent w4]; cbn [world calls].
  destruct (Date_now sv w4) as [t_ttl w5]; cbn [world calls].
  destruct (docClient_put sv _ w5) as [[[] | e] w6]; cbn [world calls];
    rewrite <- app_assoc; reflexivity.
Qed.

(** When the message cannot be read, nothing else happens. *)
Lemma handler_unreadable event st e :
  snsMessage rt event = Throw e -> handler rt sv event st = (Throw e, st).
Proof.
  intros Hmsg. unfold handler, try_catch, bind, lift, throw.
  rewrite Hmsg. reflexivity.
Qed.

(** When the message is [null], destructuring it throws. *)
Lemma handler_no_fields event st message e :
  snsMessage rt event = Ok message ->
  member message "email" = Throw e ->
  handler rt sv event st = (Throw e, st).
Proof.
  intros Hmsg Hemail. unfold handler, try_catch, bind, lift, throw.
  rewrite Hmsg, Hemail. reflexivity.
Qed.

(** When [email] cannot be converted for the log of line 32, the handler
    throws before the duplicate check. *)
Lemma handler_unprintable event st message email e :
  snsMessage rt event = Ok message ->
  member message "email" = Ok email ->
  template rt email = Throw e ->
  handler rt sv event st = (Throw e, st).
Proof.
  intros Hmsg Hemail Hlabel.
  destruct (member_defined _ _ "firstName" _ Hemail) as [firstName Hfirst].
  destruct (member_defined _ _ "lastName" _ Hemail) as [lastName Hlast].
  unfold handler, try_catch, bind, lift, throw.
  rewrite Hmsg, Hemail, Hfirst, Hlast, Hlabel. reflexivity.
Qed.

End Steps.

(** ** Encoded components *)

Lemma percent_decode_char c rest :
  percent_decode
    ((if unreserved c then String c EmptyString else percent c) ++ rest)
  = match percent_decode rest with
    | Some str => Some (String c str)
    | None => None
    end.
Proof.
  destruct c as [[] [] [] [] [] [] [] []]; reflexivity.
Qed.

(** Decoding an encoded component gives the component back. *)
Lemma percent_decode_encodeURIComponent s encoded :
  encodeURIComponent s = Ok encoded -> percent_decode encoded = Some s.
Proof.
  revert encoded. induction s as [| c s IH]; intros encoded; cbn [encodeURIComponent].
  - intros [= <-]. reflexivity.
  - destruct (lone_surrogate c s); [discriminate |].
    destruct (encodeURIComponent s) as [tail | e]; cbn [rbind]; [| discriminate].
    intros [= <-]. rewrite percent_decode_char, (IH tail eq_refl). reflexivity.
Qed.

Lemma append_assoc (s1 s2 s3 : string) : (s1 ++ s2) ++ s3 = s1 ++ (s2 ++ s3).
Proof.
  induction s1 as [| c s1 IH]; [reflexivity |].
  cbn [append]. rewrite IH. reflexivity.
Qed.

Lemma url_safe_app s s' : url_safe (s ++ s') = url_safe s && url_safe s'.
Proof.
  induction s as [| c s IH]; [reflexivity |].
  cbn [append url_safe]. rewrite IH, andb_assoc. reflexivity.
Qed.

Lemma url_safe_encodeURIComponent s encoded :
  encodeURIComponent s = Ok encoded -> url_safe encoded = true.
Proof.
  revert encoded. induction s as [| c s IH]; intros encoded; cbn [encodeURIComponent].
  - intros [= <-]. reflexivity.
  - destruct (lone_surrogate c s); [discriminate |].
    destruct (encodeURIComponent s) as [tail | e]; cbn [rbind]; [| discriminate].
    intros [= <-]. rewrite url_safe_app, (IH tail eq_refl), andb_true_r.
    destruct c as [[] [] [] [] [] [] [] []]; reflexivity.
Qed.

Lemma join_cons sep x y l : join sep (x :: y :: l) = x ++ sep ++ join sep (y :: l).
Proof.
  unfold join. cbn [fold_left].
  revert x y. induction l as [| z l IH]; intros x y; cbn [fold_left].
  - reflexivity.
  - rewrite IH, (IH y z).
    rewrite !append_assoc. reflexivity.
Qed.

(** ** Every way a run can go *)

Section Outcomes.
Context {W : Type}.
Variable rt : Runtime.
Variable sv : Services W.

(** Either the message cannot be read, or [email] cannot be converted for
    the log, and nothing happens; or the run is the duplicate check
    followed by [after_check]. *)
Lemma handler_cases event st :
  (exists e,
     handler rt sv event st = (Throw e, st)
     /\ (snsMessage rt event = Throw e
         \/ (exists message,
               snsMessage rt event = Ok message
               /\ member message "email" = Throw e)
         \/ (exists message email,
               snsMessage rt event = Ok message
               /\ member message "email" = Ok email
               /\ template rt email = Throw e)))
  \/ (exists message email firstName label d w1,
        snsMessage rt event = Ok message
        /\ member message "email" = Ok email
        /\ member message "firstName" = Ok firstName
        /\ template rt email = Ok label
        /\ checkDuplicateEmail rt sv email st
           = (Ok d, Build_State w1 (calls st ++ [QueryCommand (queryParams rt email)]))
        /\ handler rt sv event st
           = after_check rt sv email firstName d
               (Build_State w1 (calls st ++ [QueryCommand (queryParams rt email)]))).
Proof.
  destruct (snsMessage rt event) as [message | e] eqn:Hmsg.
  2:{ left. exists e. split; [apply (handler_unreadable rt sv _ _ _ Hmsg) | auto]. }
  destruct (member message "email") as [email | e] eqn:Hemail.
  2:{ left. exists e.
      split; [apply (handler_no_fields rt sv _ _ _ _ Hmsg Hemail) |].
      right. left. exists message. auto. }
  destruct (template rt email) as [label | e] eqn:Hlabel.
  2:{ left. exists e.
      split; [apply (handler_unprintable rt sv _ _ _ _ _ Hmsg Hemail Hlabel) |].
      right. right. exists message, email. auto. }
  destruct (member_defined _ _ "firstName" _ Hemail) as [firstName Hfirst].
  destruct (checkDuplicateEmail_query rt sv email st) as (d & w1 & Hcheck).
  right. exists message, email, firstName, label, d, w1.
  do 5 (split; [first [assumption | reflexivity] |]).
  apply (handler_after_check rt sv event st message email firstName label d _
           Hmsg Hemail Hfirst Hlabel Hcheck).
Qed.

(** The ways [after_check] can go, with the answer of each step. *)
Lemma after_check_cases email firstName d w1 cs :
  (truthy d = true
   /\ after_check rt sv email firstName d (Build_State w1 cs)
      = (Ok alreadySent, Build_State w1 cs))
  \/ exists token w2,
       truthy d = false
       /\ uuidv4 sv w1 = (token, w2)
       /\ ((exists e,
              (verificationLink rt email token = Throw e
               \/ exists link,
                    verificationLink rt email token = Ok link
                    /\ emailParams rt email firstName link = Throw e)
              /\ after_check rt sv email firstName d (Build_State w1 cs)
                 = (Throw e, Build_State w2 cs))
           \/ exists link mail,
                verificationLink rt email token = Ok link
                /\ emailParams rt email firstName link = Ok mail
                /\ ((exists e w3,
                       sesClient_send sv mail w2 = (Throw e, w3)
                       /\ after_check rt sv email firstName d (Build_State w1 cs)
                          = (Throw e,
                             Build_State w3 (cs ++ [SendEmailCommand mail])))
                    \/ exists w3 t_sent w4 t_ttl w5,
                         sesClient_send sv mail w2 = (Ok tt, w3)
                         /\ Date_now sv w3 = (t_sent, w4)
                         /\ Date_now sv w4 = (t_ttl, w5)
                         /\ exists written w6,
                              docClient_put sv (putParams rt email token t_sent t_ttl) w5
                              = (written, w6)
                              /\ after_check rt sv email firstName d (Build_State w1 cs)
                                 = (match written with
                                    | Ok _ => Ok sentSuccessfully
                                    | Throw e => Throw e
                                    end,
                                    Build_State w6
                                      (cs ++ [SendEmailCommand mail;
                                              PutCommand
                                                (putParams rt email token t_sent t_ttl)])))).
Proof.
  unfold after_check. cbn [world calls].
  destruct (truthy d); [left; auto | right].
  destruct (uuidv4 sv w1) as [token w2]. exists token, w2.
  split; [reflexivity |]. split; [reflexivity |].
  destruct (verificationLink rt email token) as [link | e] eqn:Hlink.
  2:{ left. exists e. auto. }
  destruct (emailParams rt email firstName link) as [mail | e] eqn:Hmail.
  2:{ left. exists e. split; [right; exists link; auto | reflexivity]. }
  right. exists link, mail. split; [reflexivity |]. split; [exact Hmail |].
  destruct (sesClient_send sv mail w2) as [[[] | e] w3] eqn:Hsend.
  - right. destruct (Date_now sv w3) as [t_sent w4] eqn:Hsent.
    destruct (Date_now sv w4) as [t_ttl w5] eqn:Httl.
    exists w3, t_sent, w4, t_ttl, w5.
    split; [reflexivity |]. split; [exact Hsent |]. split; [exact Httl |].
    destruct (docClient_put sv _ w5) as [written w6] eqn:Hput.
    exists written, w6. split; reflexivity.
  - left. exists e, w3. split; reflexivity.
Qed.

(** A check that does not report a duplicate is followed by the send of
    the message, once the link and the message are built. *)
Lemma after_check_sends email firstName d w1 cs link mail :
  truthy d = false ->
  verificationLink rt email (fst (uuidv4 sv w1)) = Ok link ->
  emailParams rt email firstName link = Ok mail ->
  exists result w' later,
    after_check rt sv email firstName d (Build_State w1 cs)
    = (result, Build_State w' (cs ++ SendEmailCommand mail :: later))
    /\ emails_of later = [].
Proof.
  intros Hd Hlink Hmail. unfold after_check. cbn [world calls].
  rewrite Hd. destruct (uuidv4 sv w1) as [token w2]. cbn [fst] in Hlink.
  rewrite Hlink, Hmail.
  destruct (sesClient_send sv mail w2) as [[[] | e] w3].
  - destruct (Date_now sv w3) as [t_sent w4].
    destruct (Date_now sv w4) as [t_ttl w5].
    destruct (docClient_put sv _ w5) as [written w6].
    do 3 eexists. split; reflexivity.
  - do 3 eexists. split; reflexivity.
Qed.

End Outcomes.

(** ** The duplicate guard, the send and the record *)

Section Guarantees.
Context {W : Type}.
Variable rt : Runtime.
Variable sv : Services W.

(** The handler reads two things from the message, [email] and
    [firstName]: two events whose messages agree on them behave alike. *)
Lemma handler_reads_two_fields e1 e2 m1 m2 st :
  snsMessage rt e1 = Ok m1 ->
  snsMessage rt e2 = Ok m2 ->
  member m1 "email" = member m2 "email" ->
  member m1 "firstName" = member m2 "firstName" ->
  handler rt sv e1 st = handler rt sv e2 st.
Proof.
  intros H1 H2 Hemail Hfirst.
  destruct (member m1 "email") as [email | e] eqn:E1.
  - symmetry in Hemail.
    destruct (template rt email) as [label | e] eqn:Hlabel.
    + destruct (member_defined _ _ "firstName" _ E1) as [firstName F1].
      assert (F2 : member m2 "firstName" = Ok firstName) by congruence.
      destruct (checkDuplicateEmail_query rt sv email st) as (d & w1 & Hcheck).
      rewrite (handler_after_check rt sv e1 st m1 email firstName label d _
                 H1 E1 F1 Hlabel Hcheck).
      rewrite (handler_after_check rt sv e2 st m2 email firstName label d _
                 H2 Hemail F2 Hlabel Hcheck).
      reflexivity.
    + rewrite (handler_unprintable rt sv e1 st m1 email e H1 E1 Hlabel).
      rewrite (handler_unprintable rt sv e2 st m2 email e H2 Hemail Hlabel).
      reflexivity.
  - symmetry in Hemail.
    rewrite (handler_no_fields rt sv e1 st m1 e H1 E1).
    rewrite (handler_no_fields rt sv e2 st m2 e H2 Hemail).
    reflexivity.
Qed.

(** Every run adds at most one query, one message and one record, in that
    order. *)
Lemma handler_calls event st :
  exists new,
    calls (snd (handler rt sv event st)) = (calls st ++ new)%list
    /\ (length (queries_of new) <= 1)%nat
    /\ (length (emails_of new) <= 1)%nat
    /\ (length (records_of new) <= 1)%nat.
Proof.
  destruct (handler_cases rt sv event st)
    as [(e & -> & _)
       | (message & email & firstName & label & d & w1 & _ & _ & _ & _ & _ & ->)].
  { exists []. rewrite app_nil_r. simpl. auto. }
  destruct (after_check_cases rt sv email firstName d w1
              (calls st ++ [QueryCommand (queryParams rt email)]))
    as [[_ ->]
       | (token & w2 & _ & _ &
          [(e & _ & ->)
          | (link & mail & _ & _ &
             [(e & w3 & _ & ->)
             | (w3 & t_sent & w4 & t_ttl & w5 & _ & _ & _ & written & w6 & _ & ->)])])];
    eexists; cbn [snd calls]; rewrite <- ?app_assoc;
    (split; [reflexivity |]); simpl; auto.
Qed.

(** C2: when the query on the event's e-mail key answers with at least one
    record, the handler returns the success response whose message is
    "Email already sent"; the query is the only call it makes, so no
    message goes to SES and no record goes to DynamoDB. (That the run
    reaches the query is the hypothesis on [template]: the log of line 32
    converts [email] first.) *)
Theorem duplicate_is_skipped event st message email label out record records w1 :
  snsMessage rt event = Ok message ->
  member message "email" = Ok email ->
  template rt email = Ok label ->
  docClient_query sv (queryParams rt email) (world st) = (Ok out, w1) ->
  Query.Items out = Some (record :: records) ->
  exists new,
    handler rt sv event st = (Ok alreadySent, Build_State w1 (calls st ++ new))
    /\ new = [QueryCommand (queryParams rt email)]
    /\ emails_of new = []
    /\ records_of new = []
    /\ statusCode alreadySent = 200
    /\ body alreadySent
       = JStr ("{" ++ dq ++ "message" ++ dq ++ ":" ++ dq ++ "Email already sent"
                 ++ dq ++ "}").
Proof.
  intros Hmsg Hemail Hlabel Hquery Hitems.
  destruct (member_defined _ _ "firstName" _ Hemail) as [firstName Hfirst].
  pose proof (checkDuplicateEmail_found rt sv email st out _ w1 Hquery Hitems)
    as Hcheck.
  exists [QueryCommand (queryParams rt email)].
  rewrite (handler_after_check rt sv event st message email firstName label _ _
             Hmsg Hemail Hfirst Hlabel Hcheck).
  repeat split.
Qed.

(** C3: when the duplicate-check query throws, [checkDuplicateEmail] does
    not throw but answers [false], and the handler goes on: once the link
    and the message are built, its next call is the [SendEmailCommand] for
    the address. *)
Theorem failed_check_lets_the_mail_through
    event st message email firstName e w1 link mail :
  snsMessage rt event = Ok message ->
  member message "email" = Ok email ->
  member message "firstName" = Ok firstName ->
  docClient_query sv (queryParams rt email) (world st) = (Throw e, w1) ->
  verificationLink rt email (fst (uuidv4 sv w1)) = Ok link ->
  emailParams rt email firstName link = Ok mail ->
  checkDuplicateEmail rt sv email st
  = (Ok (JBool false),
     Build_State w1 (calls st ++ [QueryCommand (queryParams rt email)]))
  /\ exists result w' later,
       handler rt sv event st
       = (result,
          Build_State w'
            (calls st
               ++ QueryCommand (queryParams rt email)
               :: SendEmailCommand mail
               :: later))
       /\ emails_of later = [].
Proof.
  intros Hmsg Hemail Hfirst Hquery Hlink Hmail.
  pose proof (checkDuplicateEmail_error rt sv email st e w1 Hquery) as Hcheck.
  split; [exact Hcheck |].
  destruct (verificationLink_built rt _ _ _ Hlink) as (label & _ & Hlabel & _ & _).
  rewrite (handler_after_check rt sv event st message email firstName label _ _
             Hmsg Hemail Hfirst Hlabel Hcheck).
  destruct (after_check_sends rt sv email firstName (JBool false) w1
              (calls st ++ [QueryCommand (queryParams rt email)]) link mail
              eq_refl Hlink Hmail)
    as (result & w' & later & -> & Hlater).
  exists result, w', later. rewrite <- app_assoc. split; [reflexivity | exact Hlater].
Qed.

(** C4: when SES rejects the message, the handler throws that error and
    its calls are the query and the [SendEmailCommand] only: no
    [PutCommand] is sent, and the world is left as the failed send left
    it. *)
Theorem failed_send_writes_no_record
    event st message email firstName d st1 token w2 link mail e w3 :
  snsMessage rt event = Ok message ->
  member message "email" = Ok email ->
  member message "firstName" = Ok firstName ->
  checkDuplicateEmail rt sv email st = (Ok d, st1) ->
  truthy d = false ->
  uuidv4 sv (world st1) = (token, w2) ->
  verificationLink rt email token = Ok link ->
  emailParams rt email firstName link = Ok mail ->
  sesClient_send sv mail w2 = (Throw e, w3) ->
  exists new,
    handler rt sv event st = (Throw e, Build_State w3 (calls st ++ new))
    /\ new = [QueryCommand (queryParams rt email); SendEmailCommand mail]
    /\ records_of new = [].
Proof.
  intros Hmsg Hemail Hfirst Hcheck Hd Huuid Hlink Hmail Hsend.
  destruct (verificationLink_built rt _ _ _ Hlink) as (label & _ & Hlabel & _ & _).
  rewrite (handler_after_check rt sv event st message email firstName label d st1
             Hmsg Hemail Hfirst Hlabel Hcheck).
  destruct (checkDuplicateEmail_query rt sv email st) as (d' & w1 & Hcheck').
  rewrite Hcheck in Hcheck'. injection Hcheck' as _ ->.
  unfold after_check. cbn [world calls] in *.
  rewrite Hd, Huuid, Hlink, Hmail, Hsend.
  eexists. rewrite <- app_assoc. repeat split.
Qed.

(** C5: on a run that is not a duplicate and whose message SES accepts, the
    one record handed to DynamoDB has exactly the four attributes [email],
    [token], [sentAt] and [ttl]: the event's e-mail, the token of the link,
    the clock reading as an ISO string, and the clock reading in whole
    seconds plus 86400 (24 hours). *)
Theorem tracking_record_fields
    event st message email firstName d st1 token w2 link mail w3 t_sent w4 t_ttl w5 :
  snsMessage rt event = Ok message ->
  member message "email" = Ok email ->
  member message "firstName" = Ok firstName ->
  checkDuplicateEmail rt sv email st = (Ok d, st1) ->
  truthy d = false ->
  uuidv4 sv (world st1) = (token, w2) ->
  verificationLink rt email token = Ok link ->
  emailParams rt email firstName link = Ok mail ->
  sesClient_send sv mail w2 = (Ok tt, w3) ->
  Date_now sv w3 = (t_sent, w4) ->
  Date_now sv w4 = (t_ttl, w5) ->
  exists result w6 new,
    handler rt sv event st = (result, Build_State w6 (calls st ++ new))
    /\ records_of new
       = [ {| Put.TableName := DYNAMODB_TABLE rt;
              Put.Item := {| Put.email := email;
                             Put.token := token;
                             Put.sentAt := toISOString t_sent;
                             Put.ttl := t_ttl / 1000 + 86400 |} |} ]
    /\ docClient_put sv (putParams rt email token t_sent t_ttl) w5
       = (match result with
          | Ok _ => Ok tt
          | Throw err => Throw err
          end, w6).
Proof.
  intros Hmsg Hemail Hfirst Hcheck Hd Huuid Hlink Hmail Hsend Hsent Httl.
  destruct (verificationLink_built rt _ _ _ Hlink) as (label & _ & Hlabel & _ & _).
  rewrite (handler_after_check rt sv event st message email firstName label d st1
             Hmsg Hemail Hfirst Hlabel Hcheck).
  destruct (checkDuplicateEmail_query rt sv email st) as (d' & w1 & Hcheck').
  rewrite Hcheck in Hcheck'. injection Hcheck' as _ ->.
  unfold after_check. cbn [world calls] in *.
  rewrite Hd, Huuid, Hlink, Hmail, Hsend, Hsent, Httl.
  destruct (docClient_put sv _ w5) as [[[] | err] w6];
    do 3 eexists; rewrite <- app_assoc; repeat split.
Qed.

End Guarantees.

(** ** The link in the message *)

Section Link.
Context {W : Type}.
Variable rt : Runtime.
Variable sv : Services W.

Lemma link_here link s : exists before after, link ++ s = before ++ link ++ after.
Proof. exists EmptyString, s. reflexivity. Qed.

Lemma link_later link x s :
  (exists before after, s = before ++ link ++ after) ->
  exists before after, x ++ s = before ++ link ++ after.
Proof.
  intros (before & after & ->). exists (x ++ before), after.
  rewrite append_assoc. reflexivity.
Qed.

Lemma link_twice_here link s :
  (exists before after, s = before ++ link ++ after) ->
  exists before between after,
    link ++ s = before ++ link ++ between ++ link ++ after.
Proof.
  intros (between & after & ->). exists EmptyString, between, after. reflexivity.
Qed.

Lemma link_twice_later link x s :
  (exists before between after, s = before ++ link ++ between ++ link ++ after) ->
  exists before between after,
    x ++ s = before ++ link ++ between ++ link ++ after.
Proof.
  intros (before & between & after & ->). exists (x ++ before), between, after.
  rewrite append_assoc. reflexivity.
Qed.

(** The link stands in the plain-text body. *)
Lemma textData_link firstName link :
  exists before after, textData firstName link = before ++ link ++ after.
Proof.
  unfold textData. rewrite !join_cons. unfold join.
  rewrite !append_assoc.
  repeat first [apply link_here | apply link_later].
Qed.

(** The link stands twice in the HTML body: as the target of the button and
    as the text to copy. *)
Lemma htmlData_link firstName link :
  exists before between after,
    htmlData firstName link = before ++ link ++ between ++ link ++ after.
Proof.
  unfold htmlData. rewrite !join_cons. unfold join.
  rewrite !append_assoc.
  repeat first [apply link_twice_here | apply link_twice_later].
  repeat first [apply link_here | apply link_later].
Qed.

(** C6: for a message handed to SES by a run on an address [address], with
    [token] the token of the run, the link is
    [https://DOMAIN/v1/user/verify?email=E&token=token] with [E] the
    percent-encoded address ([a%40b.com] for [a@b.com]); the two bodies of
    the message are the two templates of the file filled with that link
    and the first name, so the link stands in the plain-text body, on a
    line of its own, and in the HTML body, as the target of the button and
    as the text to copy. *)
Theorem link_in_both_bodies
    event st message address firstName d st1 token w2 new mail :
  snsMessage rt event = Ok message ->
  member message "email" = Ok (JStr address) ->
  member message "firstName" = Ok firstName ->
  checkDuplicateEmail rt sv (JStr address) st = (Ok d, st1) ->
  uuidv4 sv (world st1) = (token, w2) ->
  calls (snd (handler rt sv event st)) = (calls st ++ new)%list ->
  In mail (emails_of new) ->
  exists encoded greeting,
    encodeURIComponent address = Ok encoded
    /\ percent_decode encoded = Some address
    /\ template rt firstName = Ok greeting
    /\ let link :=
         "https://" ++ DOMAIN rt ++ "/v1/user/verify?email="
           ++ encoded ++ "&token=" ++ token in
       emails_of new = [mail]
       /\ SES.ToAddresses (SES.Destination mail) = [JStr address]
       /\ SES.Data (SES.Text (SES.Body (SES.Message mail))) = textData greeting link
       /\ SES.Data (SES.Html (SES.Body (SES.Message mail))) = htmlData greeting link
       /\ (exists before after,
             SES.Data (SES.Text (SES.Body (SES.Message mail)))
             = before ++ link ++ after)
       /\ (exists before between after,
             SES.Data (SES.Html (SES.Body (SES.Message mail)))
             = before ++ link ++ between ++ link ++ after)
       /\ encodeURIComponent "a@b.com" = Ok "a%40b.com".
Proof.
  intros Hmsg Hemail Hfirst Hcheck Huuid Hcalls Hin.
  assert (Hlabel : template rt (JStr address) = Ok address) by reflexivity.
  rewrite (handler_after_check rt sv event st message _ firstName address d st1
             Hmsg Hemail Hfirst Hlabel Hcheck) in Hcalls.
  destruct (checkDuplicateEmail_query rt sv (JStr address) st)
    as (d' & w1 & Hcheck').
  rewrite Hcheck in Hcheck'. injection Hcheck' as _ ->.
  cbn [world] in Huuid.
  assert (Hmail : forall link' mail',
    verificationLink rt (JStr address) token = Ok link' ->
    emailParams rt (JStr address) firstName link' = Ok mail' ->
    In mail (emails_of [QueryCommand (queryParams rt (JStr address));
                        SendEmailCommand mail']) ->
    exists encoded greeting,
      encodeURIComponent address = Ok encoded
      /\ percent_decode encoded = Some address
      /\ template rt firstName = Ok greeting
      /\ [mail'] = [mail]
      /\ SES.ToAddresses (SES.Destination mail) = [JStr address]
      /\ SES.Data (SES.Text (SES.Body (SES.Message mail)))
         = textData greeting (verifyUrl rt encoded token)
      /\ SES.Data (SES.Html (SES.Body (SES.Message mail)))
         = htmlData greeting (verifyUrl rt encoded token)
      /\ (exists before after,
            SES.Data (SES.Text (SES.Body (SES.Message mail)))
            = before ++ verifyUrl rt encoded token ++ after)
      /\ (exists before between after,
            SES.Data (SES.Html (SES.Body (SES.Message mail)))
            = before ++ verifyUrl rt encoded token ++ between
                ++ verifyUrl rt encoded token ++ after)
      /\ encodeURIComponent "a@b.com" = Ok "a%40b.com").
  { intros link' mail' Hlink' Hmail' [<- | []].
    destruct (verificationLink_built rt _ _ _ Hlink')
      as (address' & encoded & Haddress & Hencoded & ->).
    rewrite Hlabel in Haddress. injection Haddress as <-.
    destruct (emailParams_built rt _ _ _ _ Hmail') as (greeting & Hgreeting & ->).
    exists encoded, greeting.
    split; [exact Hencoded |].
    split; [exact (percent_decode_encodeURIComponent _ _ Hencoded) |].
    split; [exact Hgreeting |].
    do 4 (split; [reflexivity |]).
    split; [apply textData_link |]. split; [apply htmlData_link | reflexivity]. }
  destruct (after_check_cases rt sv (JStr address) firstName d w1
              (calls st ++ [QueryCommand (queryParams rt (JStr address))]))
    as [[_ Hrun]
       | (token' & w2' & _ & Huuid' &
          [(e & _ & Hrun)
          | (link' & mail' & Hlink' & Hmail' &
             [(e & w3 & _ & Hrun)
             | (w3 & t_sent & w4 & t_ttl & w5 & _ & _ & _ & written & w6 & _ & Hrun)])])];
    rewrite Hrun in Hcalls; cbn [snd calls] in Hcalls;
    rewrite <- ?app_assoc in Hcalls; apply app_inv_head in Hcalls; subst new;
    try (cbn in Hin; contradiction);
    rewrite Huuid in Huuid'; injection Huuid' as <- <-.
  - destruct (Hmail link' mail' Hlink' Hmail' Hin)
      as (encoded & greeting & H1 & H2 & H3 & H4 & H5); exists encoded, greeting; auto.
  - assert (Hin' : In mail (emails_of [QueryCommand (queryParams rt (JStr address));
                                       SendEmailCommand mail'])) by exact Hin.
    destruct (Hmail link' mail' Hlink' Hmail' Hin')
      as (encoded & greeting & H1 & H2 & H3 & H4 & H5); exists encoded, greeting; auto.
Qed.

End Link.

(** ** What the handler reads of the event *)

Section Intake.
Context {W : Type}.
Variable rt : Runtime.
Variable sv : Services W.

(** C7: when the event lacks the envelope [Records[0].Sns.Message], when
    the message is not JSON text, or when the parsed message has no fields
    to read, the handler throws that error from the state it started in: no
    query, no message, no record. *)
Theorem malformed_event_fails_whole event st e :
  envelope event = Throw e
  \/ (exists text, envelope event = Ok text /\ JSON_parse rt text = Throw e)
  \/ (exists message,
        snsMessage rt event = Ok message /\ member message "email" = Throw e) ->
  handler rt sv event st = (Throw e, st).
Proof.
  intros [Henv | [(text & Henv & Hparse) | (message & Hmsg & Hemail)]].
  - apply handler_unreadable. unfold snsMessage. rewrite Henv. reflexivity.
  - apply handler_unreadable. unfold snsMessage. rewrite Henv. exact Hparse.
  - apply (handler_no_fields rt sv event st message e Hmsg Hemail).
Qed.

(** C9: two events whose messages agree on every field but [lastName] run
    alike from the same state: the same result, the same calls (the same
    query, the same message to SES, the same record) and the same world. *)
Theorem lastName_is_ignored e1 e2 m1 m2 st :
  snsMessage rt e1 = Ok m1 ->
  snsMessage rt e2 = Ok m2 ->
  (forall name, name <> "lastName" -> member m1 name = member m2 name) ->
  handler rt sv e1 st = handler rt sv e2 st.
Proof.
  intros H1 H2 Hsame.
  apply (handler_reads_two_fields rt sv e1 e2 m1 m2 st H1 H2);
    apply Hsame; discriminate.
Qed.

(** C10: two events whose [Records] start with the same record run alike,
    whatever records follow; and a run hands at most one message to SES and
    at most one record to DynamoDB. *)
Theorem only_first_record_is_read e1 e2 record others1 others2 st :
  member e1 "Records" = Ok (JArr (record :: others1)) ->
  member e2 "Records" = Ok (JArr (record :: others2)) ->
  handler rt sv e1 st = handler rt sv e2 st
  /\ exists new,
       calls (snd (handler rt sv e1 st)) = (calls st ++ new)%list
       /\ (length (emails_of new) <= 1)%nat
       /\ (length (records_of new) <= 1)%nat.
Proof.
  intros H1 H2. split.
  - assert (Hsns : snsMessage rt e1 = snsMessage rt e2).
    { unfold snsMessage, envelope. rewrite H1, H2. reflexivity. }
    unfold handler. rewrite Hsns. reflexivity.
  - destruct (handler_calls rt sv e1 st) as (new & Hcalls & _ & Hmail & Hrec).
    exists new. auto.
Qed.

End Intake.

(** ** Runs on the sample events *)

(** A first delivery: one message to [a@b.com], one record with the token
    of the link, expiring 24 hours after the second clock reading. *)
Example first_delivery :
  let run := handler Mem.runtime Mem.services Sample.plain (Mem.start Sample.fresh) in
  fst run = Ok sentSuccessfully
  /\ Mem.table (world (snd run))
     = [ {| Put.email := JStr "a@b.com"; Put.token := Sample.uuid;
            Put.sentAt := "2026-11-03T00:00:00.999Z"; Put.ttl := 1793750401 |} ]
  /\ map (fun mail => SES.ToAddresses (SES.Destination mail))
       (Mem.outbox (world (snd run)))
     = [[JStr "a@b.com"]].
Proof. vm_compute. repeat split. Qed.

(** The same event delivered again finds the record and sends nothing. *)
Example second_delivery :
  let first := handler Mem.runtime Mem.services Sample.plain (Mem.start Sample.fresh) in
  let second := handler Mem.runtime Mem.services Sample.plain (snd first) in
  fst second = Ok alreadySent
  /\ length (Mem.outbox (world (snd second))) = 1%nat
  /\ length (Mem.table (world (snd second))) = 1%nat
  /\ emails_of (calls (snd second)) = emails_of (calls (snd first)).
Proof. vm_compute. repeat split. Qed.

(** An envelope with no record is a [TypeError] before any call. *)
Example empty_envelope :
  handler Mem.runtime Mem.services Sample.empty (Mem.start Sample.fresh)
  = (Throw TypeError, Mem.start Sample.fresh).
Proof. reflexivity. Qed.

(** An e-mail that cannot be converted is a [TypeError] before any call. *)
Example unprintable_email_run :
  handler Mem.runtime Mem.services Sample.unprintable_email (Mem.start Sample.fresh)
  = (Throw TypeError, Mem.start Sample.fresh).
Proof. vm_compute. reflexivity. Qed.

(** An e-mail that cannot be encoded is a [URIError] after the query and
    before any send. *)
Example lone_surrogate_run :
  let run := handler Mem.runtime Mem.services Sample.lone (Mem.start Sample.fresh) in
  fst run = Throw URIError
  /\ calls (snd run) = [QueryCommand (queryParams Mem.runtime (JStr Sample.lone_address))].
Proof. vm_compute. repeat split. Qed.

Section TokenField.
Context {W : Type}.
Variable rt : Runtime.
Variable sv : Services W.

(** No field of the message other than [email] and [firstName] reaches the
    run; in particular a [token] field changes nothing. *)
Lemma token_field_is_not_read e1 e2 m1 m2 st :
  snsMessage rt e1 = Ok m1 ->
  snsMessage rt e2 = Ok m2 ->
  (forall name, name <> "token" -> member m1 name = member m2 name) ->
  handler rt sv e1 st = handler rt sv e2 st.
Proof.
  intros H1 H2 Hsame.
  apply (handler_reads_two_fields rt sv e1 e2 m1 m2 st H1 H2);
    apply Hsame; discriminate.
Qed.

End TokenField.

(** ** Idempotence over the in-memory services *)

Lemma filter_found {A} (f : A -> bool) l :
  existsb f l = true -> exists x xs, filter f l = x :: xs.
Proof.
  induction l as [| a l IH]; simpl; [discriminate |].
  destruct (f a); simpl; eauto.
Qed.

Lemma existsb_last {A} (f : A -> bool) l x :
  f x = true -> existsb f (l ++ [x]) = true.
Proof.
  intros Hx. rewrite existsb_app. simpl. rewrite Hx, orb_true_r. reflexivity.
Qed.

(** While the table can be read and holds a record under the address, an
    event for that address is answered "already sent": the table and the
    outbox stay as they are. *)
Lemma stored_record_blocks_resend rt event message address w cs :
  snsMessage rt event = Ok message ->
  member message "email" = Ok (JStr address) ->
  Mem.query_fault w = None ->
  existsb (Mem.has_key address) (Mem.table w) = true ->
  handler rt Mem.services event (Build_State w cs)
  = (Ok alreadySent,
     Build_State w (cs ++ [QueryCommand (queryParams rt (JStr address))])).
Proof.
  intros Hmsg Hemail Hfault Hstored.
  destruct (member_defined _ _ "firstName" _ Hemail) as [firstName Hfirst].
  destruct (filter_found _ _ Hstored) as (x & xs & Hfilter).
  assert (Hquery :
    docClient_query Mem.services (queryParams rt (JStr address)) w
    = (Ok {| Query.Items := Some (x :: xs) |}, w)).
  { cbn. unfold Mem.query. rewrite Hfault. cbn. rewrite Hfilter. reflexivity. }
  pose proof (checkDuplicateEmail_found rt Mem.services (JStr address)
                (Build_State w cs) _ (x :: xs) w Hquery eq_refl) as Hcheck.
  rewrite (handler_after_check rt Mem.services event _ message _ firstName address _ _
             Hmsg Hemail Hfirst eq_refl Hcheck).
  reflexivity.
Qed.

(** X13: over the in-memory table, a run that reports a send leaves a
    record under the address, so the same event delivered again is answered
    "already sent" and adds nothing to the outbox. *)
Lemma second_run_sends_nothing rt event message address w cs :
  snsMessage rt event = Ok message ->
  member message "email" = Ok (JStr address) ->
  Mem.query_fault w = None ->
  let first := handler rt Mem.services event (Build_State w cs) in
  fst first = Ok sentSuccessfully ->
  let second := handler rt Mem.services event (snd first) in
  fst second = Ok alreadySent
  /\ Mem.outbox (world (snd second)) = Mem.outbox (world (snd first))
  /\ Mem.table (world (snd second)) = Mem.table (world (snd first)).
Proof.
  intros Hmsg Hemail Hfault first Hfirst second.
  assert (Hafter :
    Mem.query_fault (world (snd first)) = None
    /\ existsb (Mem.has_key address) (Mem.table (world (snd first))) = true).
  { revert Hfirst. subst first.
    destruct (member_defined _ _ "firstName" _ Hemail) as [firstName Hfn].
    destruct (checkDuplicateEmail_query rt Mem.services (JStr address)
                (Build_State w cs)) as (d & w1 & Hcheck).
    assert (Hw1 : w1 = w).
    { revert Hcheck. unfold checkDuplicateEmail, try_catch, bind, send, ret.
      cbn. unfold Mem.query. rewrite Hfault. cbn.
      intros Heq. injection Heq as _ Hw. symmetry. exact Hw. }
    subst w1.
    rewrite (handler_after_check rt Mem.services event _ message _ firstName address d _
               Hmsg Hemail Hfn eq_refl Hcheck).
    unfold after_check. cbn [world calls].
    destruct (truthy d); [discriminate |].
    cbn [uuidv4 sesClient_send docClient_put Date_now Mem.services].
    destruct (Mem.next_uuid w) as [token w2] eqn:Huuid.
    assert (Hw2 : Mem.query_fault w2 = None
                  /\ Mem.ses_fault w2 = Mem.ses_fault w
                  /\ Mem.put_fault w2 = Mem.put_fault w).
    { revert Huuid. unfold Mem.next_uuid.
      destruct (Mem.uuids w); intros Heq; injection Heq as _ <-; cbn; auto. }
    destruct Hw2 as (Hq2 & _ & _).
    destruct (verificationLink rt (JStr address) token) as [link | e];
      [| discriminate].
    destruct (emailParams rt (JStr address) firstName link) as [mail | e];
      [| discriminate].
    unfold Mem.deliver. destruct (Mem.ses_fault w2); [discriminate |].
    unfold Mem.read_clock, Mem.put. cbn.
    destruct (Mem.put_fault w2); [discriminate |].
    cbn. intros _. split; [exact Hq2 |].
    apply existsb_last. unfold Mem.has_key. cbn. apply String.eqb_refl. }
  destruct Hafter as (Hfault' & Hstored).
  subst second.
  destruct (snd first) as [w' cs'] eqn:Hsnd. cbn [world] in *.
  rewrite (stored_record_blocks_resend rt event message address w' cs'
             Hmsg Hemail Hfault' Hstored).
  cbn. auto.
Qed.

(** C1: an event that carries the token [uuid-from-webapp] is handled with
    the identifier drawn from [uuidv4] instead: the record and the link hold
    the drawn identifier, and the run is the run of the event without a
    token. *)
Theorem supplied_token_is_replaced :
  let run := handler Mem.runtime Mem.services Sample.with_token (Mem.start Sample.fresh) in
  rbind (snsMessage Mem.runtime Sample.with_token) (fun m => member m "token")
  = Ok (JStr "uuid-from-webapp")
  /\ fst run = Ok sentSuccessfully
  /\ map (fun p => Put.token (Put.Item p)) (records_of (calls (snd run)))
     = [Sample.uuid]
  /\ map (fun mail => SES.Data (SES.Text (SES.Body (SES.Message mail))))
       (emails_of (calls (snd run)))
     = [textData "John"
          ("https://dev.ritimoradiya.me/v1/user/verify?email=a%40b.com&token="
             ++ Sample.uuid)]
  /\ Sample.uuid <> "uuid-from-webapp"
  /\ run = handler Mem.runtime Mem.services Sample.plain (Mem.start Sample.fresh).
Proof.
  vm_compute. repeat split. discriminate.
Qed.

(** A failed check is not always followed by a send: here the query on
    [a@b.com] throws and the check answers [false], but the first name
    [{"toString":1}] cannot be converted for the bodies, so the handler
    throws a [TypeError] after the query alone and no message is handed to
    SES. *)
Lemma failed_check_and_unprintable_name_send_nothing :
  let st := Mem.start Sample.unreadable in
  let run := handler Mem.runtime Mem.services Sample.unprintable_name st in
  snsMessage Mem.runtime Sample.unprintable_name = Ok Sample.unprintable_name_fields
  /\ fst (docClient_query Mem.services (queryParams Mem.runtime (JStr "a@b.com"))
            (world st))
     = Throw (ServiceError "ProvisionedThroughputExceededException")
  /\ fst (checkDuplicateEmail Mem.runtime Mem.services (JStr "a@b.com") st)
     = Ok (JBool false)
  /\ fst run = Throw TypeError
  /\ calls (snd run) = [QueryCommand (queryParams Mem.runtime (JStr "a@b.com"))]
  /\ emails_of (calls (snd run)) = [].
Proof.
  vm_compute. repeat split.
Qed.

(** ** The guarantees at the sample events *)

Lemma duplicate_is_skipped_sample :
  exists new,
    handler Mem.runtime Mem.services Sample.plain (Mem.start Sample.seen)
    = (Ok alreadySent,
       Build_State Sample.seen (calls (Mem.start Sample.seen) ++ new))
    /\ new = [QueryCommand (queryParams Mem.runtime (JStr "a@b.com"))]
    /\ emails_of new = []
    /\ records_of new = []
    /\ statusCode alreadySent = 200
    /\ body alreadySent
       = JStr ("{" ++ dq ++ "message" ++ dq ++ ":" ++ dq ++ "Email already sent"
                 ++ dq ++ "}").
Proof.
  apply (duplicate_is_skipped Mem.runtime Mem.services Sample.plain
           (Mem.start Sample.seen) Sample.parsed (JStr "a@b.com") "a@b.com"
           {| Query.Items := Some [Sample.stored] |} Sample.stored []
           Sample.seen);
    reflexivity.
Defined.

Lemma failed_check_lets_the_mail_through_sample :
  checkDuplicateEmail Mem.runtime Mem.services (JStr "a@b.com")
    (Mem.start Sample.unreadable)
  = (Ok (JBool false),
     Build_State Sample.unreadable
       (calls (Mem.start Sample.unreadable)
          ++ [QueryCommand (queryParams Mem.runtime (JStr "a@b.com"))]))
  /\ exists result w' later,
       handler Mem.runtime Mem.services Sample.plain (Mem.start Sample.unreadable)
       = (result,
          Build_State w'
            (calls (Mem.start Sample.unreadable)
               ++ QueryCommand (queryParams Mem.runtime (JStr "a@b.com"))
               :: SendEmailCommand Sample.mail
               :: later))
       /\ emails_of later = [].
Proof.
  apply (failed_check_lets_the_mail_through Mem.runtime Mem.services Sample.plain
           (Mem.start Sample.unreadable) Sample.parsed (JStr "a@b.com")
           (JStr "John") (ServiceError "ProvisionedThroughputExceededException")
           Sample.unreadable
           (verifyUrl Mem.runtime "a%40b.com" Sample.uuid) Sample.mail);
    reflexivity.
Defined.

Lemma failed_send_writes_no_record_sample :
  exists new,
    handler Mem.runtime Mem.services Sample.plain (Mem.start Sample.undeliverable)
    = (Throw (ServiceError "MessageRejected"),
       Build_State (Sample.drawn Sample.undeliverable)
         (calls (Mem.start Sample.undeliverable) ++ new))
    /\ new = [QueryCommand (queryParams Mem.runtime (JStr "a@b.com"));
              SendEmailCommand Sample.mail]
    /\ records_of new = [].
Proof.
  apply (failed_send_writes_no_record Mem.runtime Mem.services Sample.plain
           (Mem.start Sample.undeliverable) Sample.parsed (JStr "a@b.com")
           (JStr "John") (JBool false)
           (Build_State Sample.undeliverable [Sample.query])
           Sample.uuid (Sample.drawn Sample.undeliverable)
           (verifyUrl Mem.runtime "a%40b.com" Sample.uuid) Sample.mail
           (ServiceError "MessageRejected") (Sample.drawn Sample.undeliverable));
    reflexivity.
Defined.

Lemma tracking_record_fields_sample :
  exists result w6 new,
    handler Mem.runtime Mem.services Sample.plain (Mem.start Sample.fresh)
    = (result, Build_State w6 (calls (Mem.start Sample.fresh) ++ new))
    /\ records_of new
       = [ {| Put.TableName := DYNAMODB_TABLE Mem.runtime;
              Put.Item := {| Put.email := JStr "a@b.com";
                             Put.token := Sample.uuid;
                             Put.sentAt := toISOString 1793664000999;
                             Put.ttl := 1793664001000 / 1000 + 86400 |} |} ]
    /\ docClient_put Mem.services
         (putParams Mem.runtime (JStr "a@b.com") Sample.uuid
            1793664000999 1793664001000)
         (Sample.ticked (Sample.ticked (Sample.mailed (Sample.drawn Sample.fresh))))
       = (match result with
          | Ok _ => Ok tt
          | Throw err => Throw err
          end, w6).
Proof.
  apply (tracking_record_fields Mem.runtime Mem.services Sample.plain
           (Mem.start Sample.fresh) Sample.parsed (JStr "a@b.com")
           (JStr "John") (JBool false)
           (Build_State Sample.fresh [Sample.query])
           Sample.uuid (Sample.drawn Sample.fresh)
           (verifyUrl Mem.runtime "a%40b.com" Sample.uuid) Sample.mail
           (Sample.mailed (Sample.drawn Sample.fresh))
           1793664000999
           (Sample.ticked (Sample.mailed (Sample.drawn Sample.fresh)))
           1793664001000
           (Sample.ticked (Sample.ticked (Sample.mailed (Sample.drawn Sample.fresh)))));
    reflexivity.
Defined.

Lemma link_in_both_bodies_sample :
  exists encoded greeting,
    encodeURIComponent "a@b.com" = Ok encoded
    /\ percent_decode encoded = Some "a@b.com"
    /\ template Mem.runtime (JStr "John") = Ok greeting
    /\ let link :=
         "https://" ++ DOMAIN Mem.runtime ++ "/v1/user/verify?email="
           ++ encoded ++ "&token=" ++ Sample.uuid in
       emails_of [Sample.query; SendEmailCommand Sample.mail;
                  PutCommand (putParams Mem.runtime (JStr "a@b.com") Sample.uuid
                                1793664000999 1793664001000)]
       = [Sample.mail]
       /\ SES.ToAddresses (SES.Destination Sample.mail) = [JStr "a@b.com"]
       /\ SES.Data (SES.Text (SES.Body (SES.Message Sample.mail)))
          = textData greeting link
       /\ SES.Data (SES.Html (SES.Body (SES.Message Sample.mail)))
          = htmlData greeting link
       /\ (exists before after,
             SES.Data (SES.Text (SES.Body (SES.Message Sample.mail)))
             = before ++ link ++ after)
       /\ (exists before between after,
             SES.Data (SES.Html (SES.Body (SES.Message Sample.mail)))
             = before ++ link ++ between ++ link ++ after)
       /\ encodeURIComponent "a@b.com" = Ok "a%40b.com".
Proof.
  apply (link_in_both_bodies Mem.runtime Mem.services Sample.plain
           (Mem.start Sample.fresh) Sample.parsed "a@b.com" (JStr "John")
           (JBool false) (Build_State Sample.fresh [Sample.query])
           Sample.uuid (Sample.drawn Sample.fresh)
           [Sample.query; SendEmailCommand Sample.mail;
            PutCommand (putParams Mem.runtime (JStr "a@b.com") Sample.uuid
                          1793664000999 1793664001000)]
           Sample.mail);
    try reflexivity.
  left. reflexivity.
Defined.

Lemma malformed_event_fails_whole_sample :
  handler Mem.runtime Mem.services Sample.garbled (Mem.start Sample.fresh)
  = (Throw SyntaxError, Mem.start Sample.fresh).
Proof.
  apply (malformed_event_fails_whole Mem.runtime Mem.services Sample.garbled
           (Mem.start Sample.fresh) SyntaxError).
  right. left. exists (JStr "not json"). split; reflexivity.
Defined.

Lemma lastName_is_ignored_sample :
  handler Mem.runtime Mem.services Sample.plain (Mem.start Sample.fresh)
  = handler Mem.runtime Mem.services Sample.renamed (Mem.start Sample.fresh).
Proof.
  apply (lastName_is_ignored Mem.runtime Mem.services Sample.plain Sample.renamed
           Sample.parsed
           (JObj [("email", JStr "a@b.com"); ("firstName", JStr "John");
                  ("lastName", JStr "Roe")])
           (Mem.start Sample.fresh)).
  - reflexivity.
  - reflexivity.
  - intros name Hname. unfold Sample.parsed. cbn [member lookup].
    destruct (String.eqb name "email"); [reflexivity |].
    destruct (String.eqb name "firstName"); [reflexivity |].
    destruct (String.eqb_spec name "lastName") as [Heq | _];
      [contradiction | reflexivity].
Defined.

Lemma only_first_record_is_read_sample :
  handler Mem.runtime Mem.services Sample.plain (Mem.start Sample.fresh)
  = handler Mem.runtime Mem.services Sample.crowded (Mem.start Sample.fresh)
  /\ exists new,
       calls (snd (handler Mem.runtime Mem.services Sample.plain
                      (Mem.start Sample.fresh)))
       = (calls (Mem.start Sample.fresh) ++ new)%list
       /\ (length (emails_of new) <= 1)%nat
       /\ (length (records_of new) <= 1)%nat.
Proof.
  apply (only_first_record_is_read Mem.runtime Mem.services Sample.plain
           Sample.crowded
           (Sample.record (Sample.message "Doe" EmptyString))
           []
           [Sample.record (Sample.message "Roe" EmptyString); JNull]
           (Mem.start Sample.fresh));
    reflexivity.
Defined.

(** * Further properties of the handler *)

Section Runs.
Context {W : Type}.
Variable rt : Runtime.
Variable sv : Services W.

(** X1: [checkDuplicateEmail] never throws. It sends one query, leaves the
    world as the query left it, and its answer is truthy exactly when the
    query succeeded with at least one item: an error, a missing [Items]
    and an empty [Items] all count as "not a duplicate". *)
Theorem duplicate_check_answer email st :
  exists d,
    checkDuplicateEmail rt sv email st
    = (Ok d,
       Build_State (snd (docClient_query sv (queryParams rt email) (world st)))
         (calls st ++ [QueryCommand (queryParams rt email)]))
    /\ truthy d
       = match fst (docClient_query sv (queryParams rt email) (world st)) with
         | Ok out =>
             match Query.Items out with
             | Some (_ :: _) => true
             | _ => false
             end
         | Throw _ => false
         end.
Proof.
  destruct (docClient_query sv (queryParams rt email) (world st))
    as [[out | e] w1] eqn:Hquery; cbn [fst snd].
  - destruct (Query.Items out) as [items |] eqn:Hitems.
    + rewrite (checkDuplicateEmail_found rt sv email st out items w1 Hquery Hitems).
      eexists. split; [reflexivity |]. destruct items; reflexivity.
    + rewrite (checkDuplicateEmail_no_items rt sv email st out w1 Hquery Hitems).
      eexists. split; reflexivity.
  - rewrite (checkDuplicateEmail_error rt sv email st e w1 Hquery).
    eexists. split; reflexivity.
Qed.

(** What a run that reached the duplicate check hands to SES: nothing when
    the check reports a duplicate or when the link or the message cannot be
    built, one message otherwise. *)
Lemma after_check_mails email firstName label d w1 cs :
  template rt email = Ok label ->
  exists new,
    calls (snd (after_check rt sv email firstName d (Build_State w1 cs)))
    = (cs ++ new)%list
    /\ (emails_of new = []
        <-> truthy d = true
            \/ (exists e, encodeURIComponent label = Throw e)
            \/ (exists e, template rt firstName = Throw e)).
Proof.
  intros Hlabel.
  destruct (after_check_cases rt sv email firstName d w1 cs)
    as [[Hd ->]
       | (token & w2 & Hd & _ &
          [(e & Hwhy & ->)
          | (link & mail & Hlink & Hmail & Hsent)])].
  - exists []. cbn [snd calls]. rewrite app_nil_r. split; [reflexivity |].
    split; auto.
  - exists []. cbn [snd calls]. rewrite app_nil_r. split; [reflexivity |].
    split; [intros _ | reflexivity]. right.
    destruct Hwhy as [Hlink | (link & _ & Hmail)].
    + destruct (verificationLink_throws rt _ _ _ Hlink)
        as [Hthrow | (address & Haddress & Hencoded)]; [congruence |].
      rewrite Hlabel in Haddress. injection Haddress as <-. left. eauto.
    + right. exists e. apply (emailParams_throws rt email firstName link e), Hmail.
  - destruct (verificationLink_built rt _ _ _ Hlink)
      as (address & encoded & Haddress & Hencoded & _).
    rewrite Hlabel in Haddress. injection Haddress as <-.
    destruct (emailParams_built rt _ _ _ _ Hmail) as (greeting & Hgreeting & _).
    assert (Hnot :
      ~ (truthy d = true
         \/ (exists e, encodeURIComponent label = Throw e)
         \/ (exists e, template rt firstName = Throw e))).
    { intros [Htrue | [(e & He) | (e & He)]]; congruence. }
    destruct Hsent as [(e & w3 & _ & ->)
                      | (w3 & t_sent & w4 & t_ttl & w5 & _ & _ & _ & written & w6 & _ & ->)];
      eexists; cbn [snd calls]; (split; [reflexivity |]); cbn;
      (split; [discriminate | intros H; contradiction]).
Qed.

(** X2: once the message is read and [email] converted for the log, a mail
    goes to SES unless the query answered with at least one item, or the
    link cannot be built ([encodeURIComponent] throws), or the message
    cannot be built ([firstName] cannot be converted): no mail exactly in
    those cases. *)
Theorem mail_goes_out_unless_found
    event st message email firstName label answer w1 :
  snsMessage rt event = Ok message ->
  member message "email" = Ok email ->
  member message "firstName" = Ok firstName ->
  template rt email = Ok label ->
  docClient_query sv (queryParams rt email) (world st) = (answer, w1) ->
  exists new,
    calls (snd (handler rt sv event st)) = (calls st ++ new)%list
    /\ (emails_of new = []
        <-> (exists out record records,
               answer = Ok out /\ Query.Items out = Some (record :: records))
            \/ (exists e, encodeURIComponent label = Throw e)
            \/ (exists e, template rt firstName = Throw e)).
Proof.
  intros Hmsg Hemail Hfirst Hlabel Hquery.
  destruct (duplicate_check_cases rt sv email st answer w1 Hquery)
    as (d & Hcheck & Hd).
  rewrite (handler_after_check rt sv event st message email firstName label d _
             Hmsg Hemail Hfirst Hlabel Hcheck).
  destruct (after_check_mails email firstName label d w1
              (calls st ++ [QueryCommand (queryParams rt email)]) Hlabel)
    as (new & Hcalls & Hiff).
  exists (QueryCommand (queryParams rt email) :: new).
  rewrite Hcalls, <- app_assoc. split; [reflexivity |].
  cbn [emails_of]. rewrite Hiff, Hd. reflexivity.
Qed.

(** X3: when DynamoDB refuses the record after SES accepted the mail, the
    handler throws the error of the write; the mail has gone out and the
    calls are the query, the send and the refused write. *)
Theorem failed_write_follows_the_send
    event st message email firstName d st1 token w2 link mail
    w3 t_sent w4 t_ttl w5 e w6 :
  snsMessage rt event = Ok message ->
  member message "email" = Ok email ->
  member message "firstName" = Ok firstName ->
  checkDuplicateEmail rt sv email st = (Ok d, st1) ->
  truthy d = false ->
  uuidv4 sv (world st1) = (token, w2) ->
  verificationLink rt email token = Ok link ->
  emailParams rt email firstName link = Ok mail ->
  sesClient_send sv mail w2 = (Ok tt, w3) ->
  Date_now sv w3 = (t_sent, w4) ->
  Date_now sv w4 = (t_ttl, w5) ->
  docClient_put sv (putParams rt email token t_sent t_ttl) w5 = (Throw e, w6) ->
  handler rt sv event st
  = (Throw e,
     Build_State w6
       (calls st
          ++ [QueryCommand (queryParams rt email);
              SendEmailCommand mail;
              PutCommand (putParams rt email token t_sent t_ttl)])).
Proof.
  intros Hmsg Hemail Hfirst Hcheck Hd Huuid Hlink Hmail Hsend Hsent Httl Hput.
  destruct (verificationLink_built rt _ _ _ Hlink) as (label & _ & Hlabel & _ & _).
  rewrite (handler_after_check rt sv event st message email firstName label d st1
             Hmsg Hemail Hfirst Hlabel Hcheck).
  destruct (checkDuplicateEmail_query rt sv email st) as (d' & w1 & Hcheck').
  rewrite Hcheck in Hcheck'. injection Hcheck' as _ ->.
  unfold after_check. cbn [world calls] in *.
  rewrite Hd, Huuid, Hlink, Hmail, Hsend, Hsent, Httl, Hput.
  rewrite <- app_assoc. reflexivity.
Qed.

(** X4: the calls of a run are, in this order, a query, a send and a write,
    cut short after any of them: never a send without the query before it,
    never a write without the send before it. The query, the mail and the
    record are about the same [email], and the record holds the token of
    the link in the mail. *)
Theorem calls_follow_one_order event st :
  exists new,
    calls (snd (handler rt sv event st)) = (calls st ++ new)%list
    /\ (new = []
        \/ exists email,
             new = [QueryCommand (queryParams rt email)]
             \/ exists firstName token link mail,
                  verificationLink rt email token = Ok link
                  /\ emailParams rt email firstName link = Ok mail
                  /\ (new = [QueryCommand (queryParams rt email);
                             SendEmailCommand mail]
                      \/ exists t_sent t_ttl,
                           new = [QueryCommand (queryParams rt email);
                                  SendEmailCommand mail;
                                  PutCommand (putParams rt email token t_sent t_ttl)])).
Proof.
  destruct (handler_cases rt sv event st)
    as [(e & -> & _)
       | (message & email & firstName & label & d & w1 & _ & _ & _ & _ & _ & ->)].
  { exists []. rewrite app_nil_r. auto. }
  destruct (after_check_cases rt sv email firstName d w1
              (calls st ++ [QueryCommand (queryParams rt email)]))
    as [[_ ->]
       | (token & w2 & _ & _ &
          [(e & _ & ->)
          | (link & mail & Hlink & Hmail &
             [(e & w3 & _ & ->)
             | (w3 & t_sent & w4 & t_ttl & w5 & _ & _ & _ & written & w6 & _ & ->)])])];
    eexists; cbn [snd calls]; rewrite <- ?app_assoc;
    (split; [reflexivity |]); right; exists email.
  - left. reflexivity.
  - left. reflexivity.
  - right. exists firstName, token, link, mail. auto.
  - right. exists firstName, token, link, mail.
    split; [exact Hlink |]. split; [exact Hmail |].
    right. exists t_sent, t_ttl. reflexivity.
Qed.

(** X5: a response is returned in two cases only, told apart by its body:
    "Email already sent" after the query alone, "Email sent successfully"
    after SES accepted the mail and DynamoDB accepted the record. Its
    status code is always 200. *)
Theorem response_tells_what_was_done event st response st' :
  handler rt sv event st = (Ok response, st') ->
  statusCode response = 200
  /\ alreadySent <> sentSuccessfully
  /\ exists email,
       (response = alreadySent
        /\ calls st' = (calls st ++ [QueryCommand (queryParams rt email)])%list)
       \/ (response = sentSuccessfully
           /\ exists firstName token link mail w2 w3 t_sent t_ttl w5,
                verificationLink rt email token = Ok link
                /\ emailParams rt email firstName link = Ok mail
                /\ calls st'
                   = (calls st
                        ++ [QueryCommand (queryParams rt email);
                            SendEmailCommand mail;
                            PutCommand (putParams rt email token t_sent t_ttl)])%list
                /\ sesClient_send sv mail w2 = (Ok tt, w3)
                /\ docClient_put sv (putParams rt email token t_sent t_ttl) w5
                   = (Ok tt, world st')).
Proof.
  intros Hrun.
  assert (Hdiff : alreadySent <> sentSuccessfully).
  { intros Heq. apply (f_equal body) in Heq. vm_compute in Heq. discriminate. }
  destruct (handler_cases rt sv event st)
    as [(e & Hthrow & _)
       | (message & email & firstName & label & d & w1 & _ & _ & _ & _ & _ & Hafter)];
    [congruence |].
  rewrite Hafter in Hrun.
  destruct (after_check_cases rt sv email firstName d w1
              (calls st ++ [QueryCommand (queryParams rt email)]))
    as [[_ Hdup]
       | (token & w2 & _ & _ &
          [(e & _ & Hfail)
          | (link & mail & Hlink & Hmail &
             [(e & w3 & _ & Hfail)
             | (w3 & t_sent & w4 & t_ttl & w5 & Hsend & _ & _ &
                written & w6 & Hput & Hdone)])])].
  - rewrite Hdup in Hrun. injection Hrun as <- <-.
    split; [reflexivity |]. split; [exact Hdiff |].
    exists email. left. split; reflexivity.
  - rewrite Hfail in Hrun. discriminate.
  - rewrite Hfail in Hrun. discriminate.
  - rewrite Hdone in Hrun. destruct written as [[] | e]; [| discriminate].
    injection Hrun as <- <-.
    split; [reflexivity |]. split; [exact Hdiff |].
    exists email. right. split; [reflexivity |].
    exists firstName, token, link, mail, w2, w3, t_sent, t_ttl, w5.
    cbn [calls world]. rewrite <- app_assoc. auto.
Qed.

(** X6: an error thrown by the handler has one of five origins. Before any
    call: reading the message, or converting [email] for the log. After
    the query alone: building the link ([encodeURIComponent] throws) or
    building the message ([firstName] cannot be converted). After the
    query and the send: SES. After the query, the send and the write: the
    write. An error of the query is never thrown. *)
Theorem thrown_error_has_an_origin event st e st' :
  handler rt sv event st = (Throw e, st') ->
  (st' = st
   /\ (snsMessage rt event = Throw e
       \/ (exists message,
             snsMessage rt event = Ok message /\ member message "email" = Throw e)
       \/ (exists message email,
             snsMessage rt event = Ok message
             /\ member message "email" = Ok email
             /\ template rt email = Throw e)))
  \/ exists message email firstName label,
       snsMessage rt event = Ok message
       /\ member message "email" = Ok email
       /\ member message "firstName" = Ok firstName
       /\ template rt email = Ok label
       /\ ((calls st' = (calls st ++ [QueryCommand (queryParams rt email)])%list
            /\ (encodeURIComponent label = Throw e
                \/ template rt firstName = Throw e))
           \/ exists token link mail w2,
                verificationLink rt email token = Ok link
                /\ emailParams rt email firstName link = Ok mail
                /\ ((calls st'
                     = (calls st
                          ++ [QueryCommand (queryParams rt email);
                              SendEmailCommand mail])%list
                     /\ sesClient_send sv mail w2 = (Throw e, world st'))
                    \/ exists t_sent t_ttl w5,
                         calls st'
                         = (calls st
                              ++ [QueryCommand (queryParams rt email);
                                  SendEmailCommand mail;
                                  PutCommand (putParams rt email token t_sent t_ttl)])%list
                         /\ docClient_put sv (putParams rt email token t_sent t_ttl) w5
                            = (Throw e, world st'))).
Proof.
  intros Hrun.
  destruct (handler_cases rt sv event st)
    as [(e' & Hthrow & Hwhy)
       | (message & email & firstName & label & d & w1 &
          Hmsg & Hemail & Hfirst & Hlabel & _ & Hafter)].
  { rewrite Hthrow in Hrun. injection Hrun as <- <-. left. auto. }
  rewrite Hafter in Hrun. right.
  exists message, email, firstName, label.
  do 4 (split; [assumption |]).
  destruct (after_check_cases rt sv email firstName d w1
              (calls st ++ [QueryCommand (queryParams rt email)]))
    as [[_ Hdup]
       | (token & w2 & _ & _ &
          [(e' & Hwhy & Hfail)
          | (link & mail & Hlink & Hmail &
             [(e' & w3 & Hsend & Hfail)
             | (w3 & t_sent & w4 & t_ttl & w5 & _ & _ & _ &
                written & w6 & Hput & Hdone)])])].
  - rewrite Hdup in Hrun. discriminate.
  - rewrite Hfail in Hrun. injection Hrun as <- <-. left.
    split; [reflexivity |].
    destruct Hwhy as [Hlink | (link & _ & Hmail)].
    + destruct (verificationLink_throws rt _ _ _ Hlink)
        as [Hthrow | (address & Haddress & Hencoded)]; [congruence |].
      rewrite Hlabel in Haddress. injection Haddress as <-. auto.
    + right. apply (emailParams_throws rt email firstName link e'), Hmail.
  - rewrite Hfail in Hrun. injection Hrun as <- <-. right.
    exists token, link, mail, w2. do 2 (split; [assumption |]). left.
    cbn [calls world]. rewrite <- app_assoc. auto.
  - rewrite Hdone in Hrun. destruct written as [[] | e']; [discriminate |].
    injection Hrun as <- <-. right.
    exists token, link, mail, w2. do 2 (split; [assumption |]). right.
    exists t_sent, t_ttl, w5. cbn [calls world]. rewrite <- app_assoc. auto.
Qed.

(** X16: when the check does not report a duplicate and the link or the
    message cannot be built, the handler throws the error of the
    conversion after the query alone: an identifier has been drawn, no
    message is handed to SES and no record is written. *)
Theorem unbuildable_message_sends_nothing
    event st message email firstName label d st1 e :
  snsMessage rt event = Ok message ->
  member message "email" = Ok email ->
  member message "firstName" = Ok firstName ->
  template rt email = Ok label ->
  checkDuplicateEmail rt sv email st = (Ok d, st1) ->
  truthy d = false ->
  (encodeURIComponent label = Throw e
   \/ ((exists encoded, encodeURIComponent label = Ok encoded)
       /\ template rt firstName = Throw e)) ->
  handler rt sv event st
  = (Throw e,
     Build_State (snd (uuidv4 sv (world st1)))
       (calls st ++ [QueryCommand (queryParams rt email)])).
Proof.
  intros Hmsg Hemail Hfirst Hlabel Hcheck Hd Hwhy.
  rewrite (handler_after_check rt sv event st message email firstName label d st1
             Hmsg Hemail Hfirst Hlabel Hcheck).
  destruct (checkDuplicateEmail_query rt sv email st) as (d' & w1 & Hcheck').
  rewrite Hcheck in Hcheck'. injection Hcheck' as _ ->.
  unfold after_check. cbn [world calls].
  rewrite Hd. destruct (uuidv4 sv w1) as [token w2]. cbn [snd].
  destruct Hwhy as [Hencoded | [(encoded & Hencoded) Hgreeting]].
  - rewrite (verificationLink_throws_of rt email token label e Hlabel Hencoded).
    reflexivity.
  - rewrite (verificationLink_of rt email token label encoded Hlabel Hencoded).
    destruct (emailParams rt email firstName (verifyUrl rt encoded token))
      as [mail | e'] eqn:Hmail.
    + destruct (emailParams_built rt _ _ _ _ Hmail) as (greeting & Hok & _).
      congruence.
    + apply (emailParams_throws rt) in Hmail. congruence.
Qed.

(** X17: an [email] that is an object with a [toString] key of its own
    stops the run at the log of line 32: the handler throws a [TypeError]
    before the duplicate check, from the state it started in. *)
Theorem unprintable_email_stops_before_the_query event st message props value :
  snsMessage rt event = Ok message ->
  member message "email" = Ok (JObj props) ->
  lookup "toString" props = Some value ->
  handler rt sv event st = (Throw TypeError, st).
Proof.
  intros Hmsg Hemail Hkey.
  apply (handler_unprintable rt sv event st message (JObj props) TypeError Hmsg Hemail).
  unfold template. cbn [ToString]. rewrite Hkey. reflexivity.
Qed.

End Runs.

(** ** The link, the expiry and the configuration *)

Lemma append_inv_head (p x y : string) : p ++ x = p ++ y -> x = y.
Proof.
  induction p as [| c p IH]; cbn [append]; intros H; [exact H |].
  injection H as H. exact (IH H).
Qed.

(** Two encoded components followed by [&] and anything are equal only if
    the components and what follows are. *)
Lemma url_safe_split x y r1 r2 :
  url_safe x = true -> url_safe y = true ->
  x ++ String "&" r1 = y ++ String "&" r2 -> x = y /\ r1 = r2.
Proof.
  revert y. induction x as [| c x IH]; intros [| c' y] Hx Hy H; cbn [append] in H.
  - injection H as ->. auto.
  - injection H as <- _. cbn in Hy. discriminate.
  - injection H as -> _. cbn in Hx. discriminate.
  - injection H as -> H.
    cbn [url_safe] in Hx, Hy.
    apply andb_true_iff in Hx as [_ Hx]. apply andb_true_iff in Hy as [_ Hy].
    destruct (IH y Hx Hy H) as [-> ->]. auto.
Qed.

Lemma encodeURIComponent_inj a b encoded :
  encodeURIComponent a = Ok encoded -> encodeURIComponent b = Ok encoded -> a = b.
Proof.
  intros Ha Hb.
  apply percent_decode_encodeURIComponent in Ha.
  apply percent_decode_encodeURIComponent in Hb. congruence.
Qed.

(** X7: for one configured domain, the link determines the address and the
    token it was built from: two addresses and tokens that give the same
    link are the same. *)
Theorem link_determines_address_and_token rt a1 t1 a2 t2 link :
  verificationLink rt (JStr a1) t1 = Ok link ->
  verificationLink rt (JStr a2) t2 = Ok link ->
  a1 = a2 /\ t1 = t2.
Proof.
  intros H1 H2.
  destruct (verificationLink_built rt _ _ _ H1) as (b1 & e1 & Hb1 & He1 & ->).
  destruct (verificationLink_built rt _ _ _ H2) as (b2 & e2 & Hb2 & He2 & H).
  injection Hb1 as <-. injection Hb2 as <-.
  unfold verifyUrl in H.
  apply append_inv_head in H. apply append_inv_head in H.
  apply append_inv_head in H.
  change ("&token=" ++ t1) with (String "&" ("token=" ++ t1)) in H.
  change ("&token=" ++ t2) with (String "&" ("token=" ++ t2)) in H.
  apply url_safe_split in H;
    [| exact (url_safe_encodeURIComponent _ _ He1)
     | exact (url_safe_encodeURIComponent _ _ He2)].
  destruct H as [<- Ht].
  split; [exact (encodeURIComponent_inj _ _ _ He1 He2) |].
  exact (append_inv_head _ _ _ Ht).
Qed.

(** X8: the [ttl] of the record counts whole seconds: it lies less than one
    second before, and never after, 24 hours past the clock reading it is
    computed from; it does not depend on the reading used for [sentAt], and
    a later reading never gives an earlier [ttl]. *)
Theorem ttl_within_a_second_of_a_day rt email token t_sent t_ttl :
  let ttl t := Put.ttl (Put.Item (putParams rt email token t_sent t)) in
  t_ttl + 86400000 - 999 <= 1000 * ttl t_ttl <= t_ttl + 86400000
  /\ (forall t_sent', Put.ttl (Put.Item (putParams rt email token t_sent' t_ttl))
                      = ttl t_ttl)
  /\ (forall t, t_ttl <= t -> ttl t_ttl <= ttl t).
Proof.
  cbn [putParams Put.ttl Put.Item].
  pose proof (Z.div_mod t_ttl 1000 ltac:(lia)) as Hdiv.
  pose proof (Z.mod_pos_bound t_ttl 1000 ltac:(lia)) as Hmod.
  split; [lia |]. split; [reflexivity |].
  intros t Hle. pose proof (Z.div_le_mono t_ttl t 1000 ltac:(lia) Hle). lia.
Qed.

Lemma env_or_value rt name fallback :
  fallback <> EmptyString ->
  env_or rt name fallback <> EmptyString
  /\ (forall value, process_env rt name = Some value -> value <> EmptyString ->
      env_or rt name fallback = value)
  /\ (process_env rt name = None \/ process_env rt name = Some EmptyString ->
      env_or rt name fallback = fallback).
Proof.
  intros Hfallback. unfold env_or.
  destruct (process_env rt name) as [[| c value] |].
  - split; [exact Hfallback |]. split; [intros v [= <-]; congruence | auto].
  - split; [discriminate |]. split; [intros v [= <-]; auto |].
    intros [H | H]; discriminate.
  - split; [exact Hfallback |]. split; [discriminate | auto].
Qed.

(** X9: whatever the environment holds, the domain of the link, the sender
    address and the table name are never empty: a variable that is set and
    not empty is used as it is, an unset or empty one gives way to the
    default of the file. *)
Theorem configuration_is_never_empty rt :
  (DOMAIN rt <> EmptyString
   /\ (forall value, process_env rt "DOMAIN" = Some value ->
       value <> EmptyString -> DOMAIN rt = value)
   /\ (process_env rt "DOMAIN" = None \/ process_env rt "DOMAIN" = Some EmptyString ->
       DOMAIN rt = "dev.ritimoradiya.me"))
  /\ (FROM_EMAIL rt <> EmptyString
      /\ (forall value, process_env rt "SES_FROM_EMAIL" = Some value ->
          value <> EmptyString -> FROM_EMAIL rt = value)
      /\ (process_env rt "SES_FROM_EMAIL" = None
          \/ process_env rt "SES_FROM_EMAIL" = Some EmptyString ->
          FROM_EMAIL rt = "noreply@ritimoradiya.me"))
  /\ (DYNAMODB_TABLE rt <> EmptyString
      /\ (forall value, process_env rt "DYNAMODB_TABLE" = Some value ->
          value <> EmptyString -> DYNAMODB_TABLE rt = value)
      /\ (process_env rt "DYNAMODB_TABLE" = None
          \/ process_env rt "DYNAMODB_TABLE" = Some EmptyString ->
          DYNAMODB_TABLE rt = "EmailVerificationTracking")).
Proof.
  repeat split; try (apply env_or_value; discriminate).
Qed.

(** ** Fields the message lacks *)

Section MissingFields.
Context {W : Type}.
Variable rt : Runtime.
Variable sv : Services W.

Lemma textData_greeting firstName link :
  exists rest, textData firstName link = ("Hello " ++ firstName ++ ",") ++ rest.
Proof.
  unfold textData. rewrite join_cons. eexists. reflexivity.
Qed.

Lemma htmlData_greeting firstName link :
  exists before after,
    htmlData firstName link
    = before ++ ("    <p>Hello " ++ firstName ++ ",</p>") ++ after.
Proof.
  unfold htmlData. rewrite !join_cons. unfold join.
  repeat first [apply link_here | apply link_later].
Qed.

(** X10: on a run that is not a duplicate and whose link and message can be
    built, the greeting of both bodies is the [firstName] of the message
    as the template literal converts it, with no escaping and no check: a
    string is greeted as it is, and a message that has no [firstName] is
    greeted "Hello undefined,". *)
Theorem greeting_is_firstName_as_it_comes
    event st message email firstName d st1 link greeting :
  snsMessage rt event = Ok message ->
  member message "email" = Ok email ->
  member message "firstName" = Ok firstName ->
  checkDuplicateEmail rt sv email st = (Ok d, st1) ->
  truthy d = false ->
  verificationLink rt email (fst (uuidv4 sv (world st1))) = Ok link ->
  template rt firstName = Ok greeting ->
  exists mail new,
    calls (snd (handler rt sv event st)) = (calls st ++ new)%list
    /\ emails_of new = [mail]
    /\ (exists rest,
          SES.Data (SES.Text (SES.Body (SES.Message mail)))
          = ("Hello " ++ greeting ++ ",") ++ rest)
    /\ (exists before after,
          SES.Data (SES.Html (SES.Body (SES.Message mail)))
          = before ++ ("    <p>Hello " ++ greeting ++ ",</p>") ++ after)
    /\ (forall name, firstName = JStr name -> greeting = name)
    /\ (forall props,
          message = JObj props -> lookup "firstName" props = None ->
          greeting = "undefined").
Proof.
  intros Hmsg Hemail Hfirst Hcheck Hd Hlink Hgreeting.
  destruct (verificationLink_built rt _ _ _ Hlink) as (label & _ & Hlabel & _ & _).
  rewrite (handler_after_check rt sv event st message email firstName label d st1
             Hmsg Hemail Hfirst Hlabel Hcheck).
  destruct (checkDuplicateEmail_query rt sv email st) as (d' & w1 & Hcheck').
  rewrite Hcheck in Hcheck'. injection Hcheck' as _ ->.
  cbn [world] in Hlink.
  destruct (after_check_sends rt sv email firstName d w1
              (calls st ++ [QueryCommand (queryParams rt email)]) link _
              Hd Hlink (emailParams_of rt email firstName link greeting Hgreeting))
    as (result & w' & later & -> & Hlater).
  eexists. eexists. cbn [snd calls]. rewrite <- app_assoc.
  split; [reflexivity |].
  split; [cbn; rewrite Hlater; reflexivity |].
  split; [apply textData_greeting |].
  split; [apply htmlData_greeting |].
  split.
  - intros name ->. cbn in Hgreeting. congruence.
  - intros props -> Hnone. cbn in Hfirst. rewrite Hnone in Hfirst.
    injection Hfirst as <-. cbn in Hgreeting. congruence.
Qed.

(** X11: a message with no [email] is not turned away. The handler queries
    with [undefined] as the key and, unless that reports a duplicate or
    [firstName] cannot be converted, sends one mail to the address
    [undefined] whose link reads [email=undefined]. *)
Theorem missing_email_is_not_rejected event st message firstName d st1 greeting :
  snsMessage rt event = Ok message ->
  member message "email" = Ok JUndefined ->
  member message "firstName" = Ok firstName ->
  checkDuplicateEmail rt sv JUndefined st = (Ok d, st1) ->
  truthy d = false ->
  template rt firstName = Ok greeting ->
  let mail :=
    emailMessage rt JUndefined greeting greeting
      ("https://" ++ DOMAIN rt ++ "/v1/user/verify?email=undefined&token="
         ++ fst (uuidv4 sv (world st1))) in
  exists result w' later,
    handler rt sv event st
    = (result,
       Build_State w'
         (calls st
            ++ QueryCommand (queryParams rt JUndefined)
            :: SendEmailCommand mail
            :: later))
    /\ emails_of later = []
    /\ lookup ":email" (Query.ExpressionAttributeValues (queryParams rt JUndefined))
       = Some JUndefined
    /\ SES.ToAddresses (SES.Destination mail) = [JUndefined].
Proof.
  intros Hmsg Hemail Hfirst Hcheck Hd Hgreeting mail.
  rewrite (handler_after_check rt sv event st message JUndefined firstName
             "undefined" d st1 Hmsg Hemail Hfirst eq_refl Hcheck).
  destruct (checkDuplicateEmail_query rt sv JUndefined st) as (d' & w1 & Hcheck').
  rewrite Hcheck in Hcheck'. injection Hcheck' as _ ->.
  destruct (after_check_sends rt sv JUndefined firstName d w1
              (calls st ++ [QueryCommand (queryParams rt JUndefined)])
              (verifyUrl rt "undefined" (fst (uuidv4 sv w1))) mail
              Hd eq_refl
              (emailParams_of rt JUndefined firstName _ greeting Hgreeting))
    as (result & w' & later & -> & Hlater).
  exists result, w', later. rewrite <- app_assoc.
  split; [reflexivity |]. split; [exact Hlater |]. split; reflexivity.
Qed.

(** X12: an event with no [Records], with an empty [Records], or whose
    first record has no [Sns], is a [TypeError] thrown before any call. *)
Theorem envelope_needs_a_first_record event st :
  member event "Records" = Ok JUndefined
  \/ member event "Records" = Ok (JArr [])
  \/ (exists record others,
        member event "Records" = Ok (JArr (record :: others))
        /\ member record "Sns" = Ok JUndefined) ->
  handler rt sv event st = (Throw TypeError, st).
Proof.
  intros H. apply handler_unreadable. unfold snsMessage, envelope.
  destruct H as [-> | [-> | (record & others & -> & Hsns)]];
    [reflexivity | reflexivity |].
  cbn [rbind index0]. rewrite Hsns. reflexivity.
Qed.

End MissingFields.

(** ** A refused write, over the in-memory services *)

Lemma filter_none {A} (f : A -> bool) l : existsb f l = false -> filter f l = [].
Proof.
  induction l as [| a l IH]; simpl; [reflexivity |].
  destruct (f a); simpl; [discriminate | exact IH].
Qed.

(** One run while the table holds nothing under the address and refuses
    writes: the mail goes out, the table stays as it is, the error of the
    write is thrown. *)
Lemma refused_write_run rt event message address encoded firstName greeting w cs e :
  snsMessage rt event = Ok message ->
  member message "email" = Ok (JStr address) ->
  member message "firstName" = Ok firstName ->
  encodeURIComponent address = Ok encoded ->
  template rt firstName = Ok greeting ->
  Mem.query_fault w = None ->
  Mem.ses_fault w = None ->
  Mem.put_fault w = Some e ->
  existsb (Mem.has_key address) (Mem.table w) = false ->
  exists w' mail cs',
    handler rt Mem.services event (Build_State w cs) = (Throw e, Build_State w' cs')
    /\ Mem.table w' = Mem.table w
    /\ Mem.outbox w' = (Mem.outbox w ++ [mail])%list
    /\ SES.ToAddresses (SES.Destination mail) = [JStr address]
    /\ Mem.query_fault w' = None
    /\ Mem.ses_fault w' = None
    /\ Mem.put_fault w' = Some e.
Proof.
  intros Hmsg Hemail Hfirst Hencoded Hgreeting Hquery Hses Hput Hnone.
  assert (Hanswer :
    docClient_query Mem.services (queryParams rt (JStr address)) w
    = (Ok {| Query.Items := Some [] |}, w)).
  { cbn. unfold Mem.query. rewrite Hquery. cbn.
    rewrite (filter_none _ _ Hnone). reflexivity. }
  pose proof (checkDuplicateEmail_found rt Mem.services (JStr address)
                (Build_State w cs) _ [] w Hanswer eq_refl) as Hcheck.
  rewrite (handler_after_check rt Mem.services event _ message _ firstName address _ _
             Hmsg Hemail Hfirst eq_refl Hcheck).
  unfold after_check. cbn [truthy Z.ltb Z.compare length Z.of_nat world calls].
  cbn [uuidv4 sesClient_send docClient_put Date_now Mem.services].
  destruct (Mem.next_uuid w) as [token w2] eqn:Huuid.
  assert (Hw2 : Mem.table w2 = Mem.table w /\ Mem.outbox w2 = Mem.outbox w
                /\ Mem.query_fault w2 = None /\ Mem.ses_fault w2 = None
                /\ Mem.put_fault w2 = Some e).
  { revert Huuid. unfold Mem.next_uuid.
    destruct (Mem.uuids w); intros Heq; injection Heq as _ <-; cbn; auto. }
  destruct Hw2 as (Htable & Houtbox & Hq2 & Hs2 & Hp2).
  rewrite (verificationLink_of rt (JStr address) token address encoded eq_refl Hencoded).
  rewrite (emailParams_of rt (JStr address) firstName _ greeting Hgreeting).
  unfold Mem.deliver. rewrite Hs2.
  unfold Mem.read_clock, Mem.put. cbn. rewrite Hp2.
  do 3 eexists. split; [reflexivity |]. cbn.
  rewrite Htable, Houtbox. repeat split; assumption.
Qed.

(** X14: over the in-memory table, for an address that can be encoded and
    a first name that can be converted: when DynamoDB refuses the write,
    the mail has gone out and no record marks it; the same event delivered
    again sends a second mail to the same address. *)
Theorem refused_write_lets_a_second_mail_out
    rt event message address encoded firstName greeting w cs e :
  snsMessage rt event = Ok message ->
  member message "email" = Ok (JStr address) ->
  member message "firstName" = Ok firstName ->
  encodeURIComponent address = Ok encoded ->
  template rt firstName = Ok greeting ->
  Mem.query_fault w = None ->
  Mem.ses_fault w = None ->
  Mem.put_fault w = Some e ->
  existsb (Mem.has_key address) (Mem.table w) = false ->
  let first := handler rt Mem.services event (Build_State w cs) in
  let second := handler rt Mem.services event (snd first) in
  fst first = Throw e
  /\ fst second = Throw e
  /\ Mem.table (world (snd second)) = Mem.table w
  /\ exists mail1 mail2,
       Mem.outbox (world (snd second)) = (Mem.outbox w ++ [mail1; mail2])%list
       /\ SES.ToAddresses (SES.Destination mail1) = [JStr address]
       /\ SES.ToAddresses (SES.Destination mail2) = [JStr address].
Proof.
  intros Hmsg Hemail Hfirst Hencoded Hgreeting Hquery Hses Hput Hnone first second.
  destruct (refused_write_run rt event message address encoded firstName greeting
              w cs e Hmsg Hemail Hfirst Hencoded Hgreeting Hquery Hses Hput Hnone)
    as (w1 & mail1 & cs1 & Hrun1 & Htable1 & Houtbox1 & Hto1 & Hq1 & Hs1 & Hp1).
  assert (Hnone1 : existsb (Mem.has_key address) (Mem.table w1) = false)
    by (rewrite Htable1; exact Hnone).
  destruct (refused_write_run rt event message address encoded firstName greeting
              w1 cs1 e Hmsg Hemail Hfirst Hencoded Hgreeting Hq1 Hs1 Hp1 Hnone1)
    as (w2 & mail2 & cs2 & Hrun2 & Htable2 & Houtbox2 & Hto2 & _ & _ & _).
  subst second first. rewrite Hrun1. cbn [fst snd]. rewrite Hrun2. cbn [fst snd world].
  split; [reflexivity |]. split; [reflexivity |].
  split; [congruence |].
  exists mail1, mail2. rewrite Houtbox2, Houtbox1, <- app_assoc. auto.
Qed.

(** ** What every mail looks like *)

Section Mails.
Context {W : Type}.
Variable rt : Runtime.
Variable sv : Services W.

Lemma textData_expiry firstName link :
  exists before after,
    textData firstName link = before ++ "This link will expire in 1 minute." ++ after.
Proof.
  unfold textData. rewrite !join_cons. unfold join.
  repeat first [apply link_here | apply link_later].
Qed.

Lemma htmlData_expiry firstName link :
  exists before after,
    htmlData firstName link
    = before ++ "    <p><strong>This link will expire in 1 minute.</strong></p>"
        ++ after.
Proof.
  unfold htmlData. rewrite !join_cons. unfold join.
  repeat first [apply link_here | apply link_later].
Qed.

(** X15: whatever the event, a mail handed to SES by a run has exactly one
    recipient, the [email] of the message; it is sent from [FROM_EMAIL]
    under the subject "Verify Your Email Address", and both bodies say that
    the link expires in one minute. *)
Theorem every_mail_goes_to_the_one_address event st new mail :
  calls (snd (handler rt sv event st)) = (calls st ++ new)%list ->
  In mail (emails_of new) ->
  exists message email,
    snsMessage rt event = Ok message
    /\ member message "email" = Ok email
    /\ SES.ToAddresses (SES.Destination mail) = [email]
    /\ SES.Source mail = FROM_EMAIL rt
    /\ SES.Data (SES.Subject (SES.Message mail)) = "Verify Your Email Address"
    /\ (exists before after,
          SES.Data (SES.Text (SES.Body (SES.Message mail)))
          = before ++ "This link will expire in 1 minute." ++ after)
    /\ (exists before after,
          SES.Data (SES.Html (SES.Body (SES.Message mail)))
          = before
              ++ "    <p><strong>This link will expire in 1 minute.</strong></p>"
              ++ after).
Proof.
  intros Hcalls Hin.
  destruct (handler_cases rt sv event st)
    as [(e & Hthrow & _)
       | (message & email & firstName & label & d & w1 &
          Hmsg & Hemail & _ & _ & _ & Hafter)].
  { rewrite Hthrow in Hcalls. cbn [snd] in Hcalls.
    rewrite <- (app_nil_r (calls st)) in Hcalls at 1.
    apply app_inv_head in Hcalls. subst new. contradiction. }
  exists message, email. split; [exact Hmsg |]. split; [exact Hemail |].
  assert (Hmail : forall link mail',
    emailParams rt email firstName link = Ok mail' ->
    mail' = mail ->
    SES.ToAddresses (SES.Destination mail) = [email]
    /\ SES.Source mail = FROM_EMAIL rt
    /\ SES.Data (SES.Subject (SES.Message mail)) = "Verify Your Email Address"
    /\ (exists before after,
          SES.Data (SES.Text (SES.Body (SES.Message mail)))
          = before ++ "This link will expire in 1 minute." ++ after)
    /\ (exists before after,
          SES.Data (SES.Html (SES.Body (SES.Message mail)))
          = before
              ++ "    <p><strong>This link will expire in 1 minute.</strong></p>"
              ++ after)).
  { intros link mail' Hbuilt <-.
    destruct (emailParams_built rt _ _ _ _ Hbuilt) as (greeting & _ & ->).
    do 3 (split; [reflexivity |]).
    split; [apply textData_expiry | apply htmlData_expiry]. }
  rewrite Hafter in Hcalls.
  destruct (after_check_cases rt sv email firstName d w1
              (calls st ++ [QueryCommand (queryParams rt email)]))
    as [[_ Hrun]
       | (token & w2 & _ & _ &
          [(e & _ & Hrun)
          | (link & mail' & _ & Hbuilt &
             [(e & w3 & _ & Hrun)
             | (w3 & t_sent & w4 & t_ttl & w5 & _ & _ & _ &
                written & w6 & _ & Hrun)])])];
    rewrite Hrun in Hcalls; cbn [snd calls] in Hcalls;
    rewrite <- ?app_assoc in Hcalls; apply app_inv_head in Hcalls; subst new;
    cbn in Hin.
  - contradiction.
  - contradiction.
  - destruct Hin as [Heq | []]. apply (Hmail link mail' Hbuilt Heq).
  - destruct Hin as [Heq | []]. apply (Hmail link mail' Hbuilt Heq).
Qed.

End Mails.

(** ** The further properties at the sample events *)

Lemma mail_goes_out_unless_found_sample :
  exists new,
    calls (snd (handler Mem.runtime Mem.services Sample.plain
                   (Mem.start Sample.fresh)))
    = (calls (Mem.start Sample.fresh) ++ new)%list
    /\ (emails_of new = []
        <-> (exists out record records,
               Ok {| Query.Items := Some [] |} = Ok out
               /\ Query.Items out = Some (record :: records))
            \/ (exists e, encodeURIComponent "a@b.com" = Throw e)
            \/ (exists e, template Mem.runtime (JStr "John") = Throw e)).
Proof.
  apply (mail_goes_out_unless_found Mem.runtime Mem.services Sample.plain
           (Mem.start Sample.fresh) Sample.parsed (JStr "a@b.com") (JStr "John")
           "a@b.com" (Ok {| Query.Items := Some [] |}) Sample.fresh);
    reflexivity.
Defined.

Lemma failed_write_follows_the_send_sample :
  handler Mem.runtime Mem.services Sample.plain (Mem.start Sample.unwritable)
  = (Throw (ServiceError "ProvisionedThroughputExceededException"),
     Build_State
       (Sample.ticked (Sample.ticked (Sample.mailed (Sample.drawn Sample.unwritable))))
       (calls (Mem.start Sample.unwritable)
          ++ [QueryCommand (queryParams Mem.runtime (JStr "a@b.com"));
              SendEmailCommand Sample.mail;
              PutCommand
                (putParams Mem.runtime (JStr "a@b.com") Sample.uuid
                   1793664000999 1793664001000)])).
Proof.
  apply (failed_write_follows_the_send Mem.runtime Mem.services Sample.plain
           (Mem.start Sample.unwritable) Sample.parsed (JStr "a@b.com")
           (JStr "John") (JBool false)
           (Build_State Sample.unwritable [Sample.query])
           Sample.uuid (Sample.drawn Sample.unwritable)
           (verifyUrl Mem.runtime "a%40b.com" Sample.uuid) Sample.mail
           (Sample.mailed (Sample.drawn Sample.unwritable))
           1793664000999
           (Sample.ticked (Sample.mailed (Sample.drawn Sample.unwritable)))
           1793664001000
           (Sample.ticked (Sample.ticked (Sample.mailed (Sample.drawn Sample.unwritable))))
           (ServiceError "ProvisionedThroughputExceededException")
           (Sample.ticked (Sample.ticked (Sample.mailed (Sample.drawn Sample.unwritable)))));
    reflexivity.
Defined.

Lemma response_tells_what_was_done_sample :
  statusCode alreadySent = 200
  /\ alreadySent <> sentSuccessfully
  /\ exists email,
       (alreadySent = alreadySent
        /\ calls (Build_State Sample.seen [Sample.query])
           = (calls (Mem.start Sample.seen)
                ++ [QueryCommand (queryParams Mem.runtime email)])%list)
       \/ (alreadySent = sentSuccessfully
           /\ exists firstName token link mail w2 w3 t_sent t_ttl w5,
                verificationLink Mem.runtime email token = Ok link
                /\ emailParams Mem.runtime email firstName link = Ok mail
                /\ calls (Build_State Sample.seen [Sample.query])
                   = (calls (Mem.start Sample.seen)
                        ++ [QueryCommand (queryParams Mem.runtime email);
                            SendEmailCommand mail;
                            PutCommand
                              (putParams Mem.runtime email token t_sent t_ttl)])%list
                /\ sesClient_send Mem.services mail w2 = (Ok tt, w3)
                /\ docClient_put Mem.services
                     (putParams Mem.runtime email token t_sent t_ttl) w5
                   = (Ok tt, world (Build_State Sample.seen [Sample.query]))).
Proof.
  apply (response_tells_what_was_done Mem.runtime Mem.services Sample.plain
           (Mem.start Sample.seen) alreadySent
           (Build_State Sample.seen [Sample.query])).
  reflexivity.
Defined.

Lemma thrown_error_has_an_origin_sample :
  let st := Mem.start Sample.fresh in
  let st' :=
    Build_State (Sample.drawn Sample.fresh)
      [QueryCommand (queryParams Mem.runtime (JStr Sample.lone_address))] in
  (st' = st
   /\ (snsMessage Mem.runtime Sample.lone = Throw URIError
       \/ (exists message,
             snsMessage Mem.runtime Sample.lone = Ok message
             /\ member message "email" = Throw URIError)
       \/ (exists message email,
             snsMessage Mem.runtime Sample.lone = Ok message
             /\ member message "email" = Ok email
             /\ template Mem.runtime email = Throw URIError)))
  \/ exists message email firstName label,
       snsMessage Mem.runtime Sample.lone = Ok message
       /\ member message "email" = Ok email
       /\ member message "firstName" = Ok firstName
       /\ template Mem.runtime email = Ok label
       /\ ((calls st'
            = (calls st ++ [QueryCommand (queryParams Mem.runtime email)])%list
            /\ (encodeURIComponent label = Throw URIError
                \/ template Mem.runtime firstName = Throw URIError))
           \/ exists token link mail w2,
                verificationLink Mem.runtime email token = Ok link
                /\ emailParams Mem.runtime email firstName link = Ok mail
                /\ ((calls st'
                     = (calls st
                          ++ [QueryCommand (queryParams Mem.runtime email);
                              SendEmailCommand mail])%list
                     /\ sesClient_send Mem.services mail w2
                        = (Throw URIError, world st'))
                    \/ exists t_sent t_ttl w5,
                         calls st'
                         = (calls st
                              ++ [QueryCommand (queryParams Mem.runtime email);
                                  SendEmailCommand mail;
                                  PutCommand
                                    (putParams Mem.runtime email token t_sent t_ttl)])%list
                         /\ docClient_put Mem.services
                              (putParams Mem.runtime email token t_sent t_ttl) w5
                            = (Throw URIError, world st'))).
Proof.
  apply (thrown_error_has_an_origin Mem.runtime Mem.services Sample.lone
           (Mem.start Sample.fresh) URIError
           (Build_State (Sample.drawn Sample.fresh)
              [QueryCommand (queryParams Mem.runtime (JStr Sample.lone_address))])).
  vm_compute. reflexivity.
Defined.

Lemma link_determines_address_and_token_sample :
  "a@b.com" = "a@b.com" /\ Sample.uuid = Sample.uuid.
Proof.
  apply (link_determines_address_and_token Mem.runtime
           "a@b.com" Sample.uuid "a@b.com" Sample.uuid
           (verifyUrl Mem.runtime "a%40b.com" Sample.uuid));
    reflexivity.
Defined.

Lemma greeting_is_firstName_as_it_comes_sample :
  exists mail new,
    calls (snd (handler Mem.runtime Mem.services Sample.snake_case
                   (Mem.start Sample.fresh)))
    = (calls (Mem.start Sample.fresh) ++ new)%list
    /\ emails_of new = [mail]
    /\ (exists rest,
          SES.Data (SES.Text (SES.Body (SES.Message mail)))
          = ("Hello " ++ "undefined" ++ ",") ++ rest)
    /\ (exists before after,
          SES.Data (SES.Html (SES.Body (SES.Message mail)))
          = before ++ ("    <p>Hello " ++ "undefined" ++ ",</p>") ++ after)
    /\ (forall name, JUndefined = JStr name -> "undefined" = name)
    /\ (forall props,
          JObj Sample.snake_case_fields = JObj props ->
          lookup "firstName" props = None ->
          "undefined" = "undefined").
Proof.
  apply (greeting_is_firstName_as_it_comes Mem.runtime Mem.services
           Sample.snake_case (Mem.start Sample.fresh)
           (JObj Sample.snake_case_fields) (JStr "test@example.com") JUndefined
           (JBool false)
           (Build_State Sample.fresh
              [QueryCommand (queryParams Mem.runtime (JStr "test@example.com"))])
           (verifyUrl Mem.runtime "test%40example.com" Sample.uuid)
           "undefined");
    reflexivity.
Defined.

Lemma missing_email_is_not_rejected_sample :
  let st1 :=
    Build_State Sample.fresh [QueryCommand (queryParams Mem.runtime JUndefined)] in
  let mail :=
    emailMessage Mem.runtime JUndefined "John" "John"
      ("https://" ++ DOMAIN Mem.runtime ++ "/v1/user/verify?email=undefined&token="
         ++ fst (uuidv4 Mem.services (world st1))) in
  exists result w' later,
    handler Mem.runtime Mem.services Sample.anonymous (Mem.start Sample.fresh)
    = (result,
       Build_State w'
         (calls (Mem.start Sample.fresh)
            ++ QueryCommand (queryParams Mem.runtime JUndefined)
            :: SendEmailCommand mail
            :: later))
    /\ emails_of later = []
    /\ lookup ":email"
         (Query.ExpressionAttributeValues (queryParams Mem.runtime JUndefined))
       = Some JUndefined
    /\ SES.ToAddresses (SES.Destination mail) = [JUndefined].
Proof.
  apply (missing_email_is_not_rejected Mem.runtime Mem.services Sample.anonymous
           (Mem.start Sample.fresh) (JObj [("firstName", JStr "John")])
           (JStr "John") (JBool false)
           (Build_State Sample.fresh
              [QueryCommand (queryParams Mem.runtime JUndefined)])
           "John");
    reflexivity.
Defined.

Lemma envelope_needs_a_first_record_sample :
  handler Mem.runtime Mem.services Sample.bare (Mem.start Sample.fresh)
  = (Throw TypeError, Mem.start Sample.fresh).
Proof.
  apply (envelope_needs_a_first_record Mem.runtime Mem.services Sample.bare
           (Mem.start Sample.fresh)).
  right. right. exists (JObj []), []. split; reflexivity.
Defined.

Lemma second_run_sends_nothing_sample :
  let first :=
    handler Mem.runtime Mem.services Sample.plain (Build_State Sample.fresh []) in
  let second := handler Mem.runtime Mem.services Sample.plain (snd first) in
  fst second = Ok alreadySent
  /\ Mem.outbox (world (snd second)) = Mem.outbox (world (snd first))
  /\ Mem.table (world (snd second)) = Mem.table (world (snd first)).
Proof.
  apply (second_run_sends_nothing Mem.runtime Sample.plain Sample.parsed
           "a@b.com" Sample.fresh []);
    reflexivity.
Defined.

Lemma refused_write_lets_a_second_mail_out_sample :
  let first :=
    handler Mem.runtime Mem.services Sample.plain (Build_State Sample.unwritable []) in
  let second := handler Mem.runtime Mem.services Sample.plain (snd first) in
  fst first = Throw (ServiceError "ProvisionedThroughputExceededException")
  /\ fst second = Throw (ServiceError "ProvisionedThroughputExceededException")
  /\ Mem.table (world (snd second)) = Mem.table Sample.unwritable
  /\ exists mail1 mail2,
       Mem.outbox (world (snd second))
       = (Mem.outbox Sample.unwritable ++ [mail1; mail2])%list
       /\ SES.ToAddresses (SES.Destination mail1) = [JStr "a@b.com"]
       /\ SES.ToAddresses (SES.Destination mail2) = [JStr "a@b.com"].
Proof.
  apply (refused_write_lets_a_second_mail_out Mem.runtime Sample.plain Sample.parsed
           "a@b.com" "a%40b.com" (JStr "John") "John" Sample.unwritable []
           (ServiceError "ProvisionedThroughputExceededException"));
    reflexivity.
Defined.

Lemma every_mail_goes_to_the_one_address_sample :
  exists message email,
    snsMessage Mem.runtime Sample.plain = Ok message
    /\ member message "email" = Ok email
    /\ SES.ToAddresses (SES.Destination Sample.mail) = [email]
    /\ SES.Source Sample.mail = FROM_EMAIL Mem.runtime
    /\ SES.Data (SES.Subject (SES.Message Sample.mail)) = "Verify Your Email Address"
    /\ (exists before after,
          SES.Data (SES.Text (SES.Body (SES.Message Sample.mail)))
          = before ++ "This link will expire in 1 minute." ++ after)
    /\ (exists before after,
          SES.Data (SES.Html (SES.Body (SES.Message Sample.mail)))
          = before
              ++ "    <p><strong>This link will expire in 1 minute.</strong></p>"
              ++ after).
Proof.
  apply (every_mail_goes_to_the_one_address Mem.runtime Mem.services Sample.plain
           (Mem.start Sample.fresh)
           [Sample.query; SendEmailCommand Sample.mail;
            PutCommand (putParams Mem.runtime (JStr "a@b.com") Sample.uuid
                          1793664000999 1793664001000)]
           Sample.mail).
  - reflexivity.
  - left. reflexivity.
Defined.

Lemma unbuildable_message_sends_nothing_sample :
  handler Mem.runtime Mem.services Sample.unprintable_name (Mem.start Sample.fresh)
  = (Throw TypeError,
     Build_State
       (snd (uuidv4 Mem.services (world (Build_State Sample.fresh [Sample.query]))))
       (calls (Mem.start Sample.fresh)
          ++ [QueryCommand (queryParams Mem.runtime (JStr "a@b.com"))])).
Proof.
  apply (unbuildable_message_sends_nothing Mem.runtime Mem.services
           Sample.unprintable_name (Mem.start Sample.fresh)
           Sample.unprintable_name_fields (JStr "a@b.com") Sample.unprintable
           "a@b.com" (JBool false) (Build_State Sample.fresh [Sample.query])
           TypeError);
    try reflexivity.
  right. split; [exists "a%40b.com"; reflexivity | reflexivity].
Defined.

Lemma unprintable_email_stops_before_the_query_sample :
  handler Mem.runtime Mem.services Sample.unprintable_email (Mem.start Sample.fresh)
  = (Throw TypeError, Mem.start Sample.fresh).
Proof.
  apply (unprintable_email_stops_before_the_query Mem.runtime Mem.services
           Sample.unprintable_email (Mem.start Sample.fresh)
           (JObj [("email", Sample.unprintable); ("firstName", JStr "John")])
           [("toString", JNum 1)] (JNum 1));
    reflexivity.
Defined.
